(** * go-openai: chat completion messages, their JSON form, and the two
      chat-completion entry points of the client.

    The development follows [chat_stream.go] and [chat.go]:

    - [reflect] and [json] model the part of Go's reflection and of
      [encoding/json] that [MarshalJSON] relies on: struct types with tags and
      embedded fields, the resolution of JSON field names (Go's dominance
      rule), [omitempty], and decoding of an object into a struct;
    - the data model of the package (messages, deltas, requests, responses);
    - [ChatCompletionMessage_MarshalJSON] and
      [ChatCompletionStreamChoiceDelta_MarshalJSON];
    - the streaming reader and its [Recv];
    - [CreateChatCompletion] and [CreateChatCompletionStream], written in a
      small state monad that threads the request variables (the parameter
      [request] is passed by value and assigned to) and the log of the calls
      made to the collaborators (request builder, HTTP transport).

    JSON text is represented by the value it denotes ([json.JSON]): an object
    is the ordered list of its members.  The rendering of a string leaf as
    bytes (escaping) is the serialization library's and is not part of this
    model. *)

From Stdlib Require Import String Ascii List ZArith NArith Bool Arith Lia.
From Stdlib Require Import Permutation.
Set Warnings "-register-all".

Import ListNotations.
Local Open Scope string_scope.
Local Open Scope list_scope.

(* ================================================================== *)
(** ** Go's [reflect]: types and values of the kinds the package uses *)
(* ================================================================== *)

Module reflect.

(** A field declaration of a struct type: [Tag] is the text of the [json]
    key of the field's tag (what [sf.Tag.Get("json")] returns). *)
Record StructField (T : Type) : Type := mkStructField {
  Name : string;
  Typ : T;
  Tag : string;
  Anonymous : bool
}.
Arguments mkStructField {T} _ _ _ _.
Arguments Name {T} _.
Arguments Typ {T} _.
Arguments Tag {T} _.
Arguments Anonymous {T} _.

(** Types of kind string (the named string types [Arguments],
    [FinishReason], ... included), pointer and struct. *)
Inductive type : Type :=
| String
| Pointer (elem : type)
| Struct (fields : list (StructField type)).

(** Values: a struct value lists the values of its fields in declaration
    order; a pointer is nil or refers to a value. *)
Inductive value : Type :=
| VString (s : string)
| VPointer (p : option value)
| VStruct (fields : list value).

Definition isStruct (t : type) : bool :=
  match t with Struct _ => true | _ => false end.

(** Nesting depth of a type, the recursion bound of the encoder and of the
    decoder. *)
Fixpoint height (t : type) : nat :=
  match t with
  | String => 1
  | Pointer e => S (height e)
  | Struct fs =>
      S ((fix go (l : list (StructField type)) : nat :=
            match l with
            | [] => 0
            | f :: r => Nat.max (height (Typ f)) (go r)
            end) fs)
  end.


(** An identifier is exported when it starts with an upper-case letter. *)
Definition isUpper (c : ascii) : bool :=
  let n := nat_of_ascii c in (65 <=? n)%nat && (n <=? 90)%nat.

Definition IsExported (name : string) : bool :=
  match name with
  | EmptyString => false
  | String.String c _ => isUpper c
  end.

End reflect.

(* ================================================================== *)
(** ** Go's [encoding/json], on values instead of bytes *)
(* ================================================================== *)

Module json.
Import reflect.

(** The value a JSON text denotes.  Members of an object keep the order in
    which they are written. *)
Inductive JSON : Type :=
| JNull
| JBool (b : bool)
| JNumber (literal : string)
| JString (s : string)
| JArray (elems : list JSON)
| JObject (members : list (string * JSON)).

(** *** Tags *)

(** [strings.Split(s, ",")]. *)
Fixpoint splitComma (s : string) : list string :=
  match s with
  | EmptyString => [EmptyString]
  | String.String c r =>
      if Ascii.eqb c "," then EmptyString :: splitComma r
      else match splitComma r with
           | h :: t => String.String c h :: t
           | [] => [String.String c EmptyString]
           end
  end.

(** [parseTag]: the name before the first comma, and the options after. *)
Definition parseTag (tag : string) : string * list string :=
  match splitComma tag with
  | n :: opts => (n, opts)
  | [] => (EmptyString, [])
  end.

(** [tagOptions.Contains]. *)
Definition Contains (opts : list string) (optionName : string) : bool :=
  existsb (String.eqb optionName) opts.

Definition isLetterOrDigit (c : ascii) : bool :=
  let n := nat_of_ascii c in
  ((48 <=? n) && (n <=? 57) || (65 <=? n) && (n <=? 90)
   || (97 <=? n) && (n <=? 122))%nat.

Fixpoint inString (c : ascii) (s : string) : bool :=
  match s with
  | EmptyString => false
  | String.String d r => Ascii.eqb c d || inString c r
  end.

Fixpoint allChars (p : ascii -> bool) (s : string) : bool :=
  match s with
  | EmptyString => true
  | String.String c r => p c && allChars p r
  end.

(** [isValidTag], on ASCII names. *)
Definition isValidTag (s : string) : bool :=
  match s with
  | EmptyString => false
  | _ => allChars (fun c => inString c "!#$%&()*+-./:;<=>?@[]^_{|}~ "
                            || isLetterOrDigit c) s
  end.

(** *** Fields of a struct type *)

(** A JSON field of a struct type, as [typeFields] records it: its JSON
    name, whether the name comes from a tag, the index sequence that leads
    to it through embedded structs, and [omitempty]. *)
Record field : Type := mkField {
  name : string;
  tag : bool;
  index : list nat;
  typ : type;
  omitEmpty : bool
}.

(** The candidate fields of a struct type, embedded structs included.  An
    embedded struct (or pointer to struct) without a tag name is not a
    field itself: its own fields are promoted, one level deeper. *)
Fixpoint candidates (idx : list nat) (t : type) {struct t} : list field :=
  match t with
  | Struct sfs =>
      (fix scan (i : nat) (l : list (StructField type)) : list field :=
         match l with
         | [] => []
         | sf :: rest =>
             let index := idx ++ [i] in
             let '(nm, opts) := parseTag (Tag sf) in
             let nm := if isValidTag nm then nm else EmptyString in
             let tagged := negb (String.eqb nm EmptyString) in
             let record (ft : type) :=
               [ {| name := if tagged then nm else Name sf;
                    tag := tagged;
                    index := index;
                    typ := ft;
                    omitEmpty := Contains opts "omitempty" |} ] in
             let visit (ft : type) (promoted : list field) :=
               if Anonymous sf && negb (IsExported (Name sf))
                  && negb (isStruct ft) then []
               else if negb (Anonymous sf) && negb (IsExported (Name sf))
               then []
               else if String.eqb (Tag sf) "-" then []
               else if tagged || negb (Anonymous sf) || negb (isStruct ft)
               then record ft
               else promoted in
             let here :=
               match Typ sf with
               | Pointer e => visit e (candidates index e)
               | _ => visit (Typ sf) (candidates index (Typ sf))
               end in
             here ++ scan (S i) rest
         end) 0%nat sfs
  | _ => []
  end.

(** [byIndex.Less]: index sequences in lexicographic order. *)
Fixpoint indexLess (a b : list nat) : bool :=
  match a, b with
  | [], [] => false
  | [], _ :: _ => true
  | _ :: _, [] => false
  | x :: a', y :: b' => if (x =? y)%nat then indexLess a' b' else (x <? y)%nat
  end.

(** The order [typeFields] sorts the candidates in: by name, then by depth
    of embedding, then tagged before untagged, then by index sequence. *)
Definition less (x y : field) : bool :=
  if negb (String.eqb (name x) (name y)) then String.ltb (name x) (name y)
  else if negb (List.length (index x) =? List.length (index y))%nat
  then (List.length (index x) <? List.length (index y))%nat
  else if negb (Bool.eqb (tag x) (tag y)) then tag x
  else indexLess (index x) (index y).

Fixpoint insertBy (lt : field -> field -> bool) (x : field)
         (l : list field) : list field :=
  match l with
  | [] => [x]
  | y :: r => if lt y x then y :: insertBy lt x r else x :: l
  end.

Definition sortBy (lt : field -> field -> bool) (l : list field)
  : list field :=
  fold_right (insertBy lt) [] l.

(** Runs of fields with the same name, in a list sorted by [less]. *)
Fixpoint groups (l : list field) : list (list field) :=
  match l with
  | [] => []
  | f :: r =>
      match groups r with
      | ((g :: _) as grp) :: gs =>
          if String.eqb (name f) (name g) then (f :: grp) :: gs
          else [f] :: grp :: gs
      | other => [f] :: other
      end
  end.

(** [dominantField]: among the fields sharing a name, the shallowest one
    wins, a tagged one before an untagged one; two candidates at the same
    depth and with the same tagging hide each other and the name is
    dropped. *)
Definition dominantField (fields : list field) : option field :=
  match fields with
  | [] => None
  | f0 :: [] => Some f0
  | f0 :: f1 :: _ =>
      if (List.length (index f0) =? List.length (index f1))%nat
         && Bool.eqb (tag f0) (tag f1)
      then None else Some f0
  end.

(** [typeFields]: the JSON fields of a struct type, in the order of their
    index sequences.  (The library explores embedded structs breadth first
    and visits a struct type once; on types that embed no struct type
    twice, as here, this is the list below.) *)
Definition typeFields (t : type) : list field :=
  let sorted := sortBy less (candidates [] t) in
  let out := flat_map (fun g => match dominantField g with
                                | Some d => [d]
                                | None => []
                                end) (groups sorted) in
  sortBy (fun x y => indexLess (index x) (index y)) out.

(** *** Encoding *)

(** [isEmptyValue]: what [omitempty] omits.  A struct is never empty. *)
Definition isEmptyValue (v : value) : bool :=
  match v with
  | VString s => (String.length s =? 0)%nat
  | VPointer None => true
  | VPointer (Some _) => false
  | VStruct _ => false
  end.

(** The field of [v] at an index sequence, through embedded structs and
    pointers to them.  [Some None]: a nil pointer is on the way (the
    encoder skips the field).  [None]: [v] is not a value of type [t]. *)
Fixpoint fieldByIndex (t : type) (v : value) (idx : list nat)
  : option (option (type * value)) :=
  match idx with
  | [] => Some (Some (t, v))
  | i :: rest =>
      let field (sfs : list (StructField type)) (vs : list value) :=
        match nth_error sfs i, nth_error vs i with
        | Some sf, Some fv => fieldByIndex (Typ sf) fv rest
        | _, _ => None
        end in
      match t, v with
      | Struct sfs, VStruct vs => field sfs vs
      | Pointer _, VPointer None => Some None
      | Pointer (Struct sfs), VPointer (Some (VStruct vs)) => field sfs vs
      | _, _ => None
      end
  end.

(** The members a struct value encodes to, given the encoder of the
    fields.  *)
Fixpoint structMembers (enc : type -> value -> option JSON)
         (t : type) (v : value) (fields : list field)
  : option (list (string * JSON)) :=
  match fields with
  | [] => Some []
  | f :: rest =>
      match fieldByIndex t v (index f) with
      | None => None
      | Some None => structMembers enc t v rest
      | Some (Some (ft, fv)) =>
          if omitEmpty f && isEmptyValue fv then structMembers enc t v rest
          else
            match enc ft fv, structMembers enc t v rest with
            | Some j, Some ms => Some ((name f, j) :: ms)
            | _, _ => None
            end
      end
  end.

(** The encoder of a type.  [None] is the error result; on a value of the
    type, and with [fuel] at least the height of the type, there is none.
*)
Fixpoint encoder (fuel : nat) (t : type) (v : value) : option JSON :=
  match fuel with
  | O => None
  | S n =>
      match t, v with
      | String, VString s => Some (JString s)
      | Pointer _, VPointer None => Some JNull
      | Pointer e, VPointer (Some x) => encoder n e x
      | Struct _, VStruct _ =>
          option_map JObject (structMembers (encoder n) t v (typeFields t))
      | _, _ => None
      end
  end.

(** [json.Marshal] of a value [v] of type [t] without [MarshalJSON]
    methods. *)
Definition Marshal (t : type) (v : value) : option JSON :=
  encoder (height t) t v.

(** *** Decoding *)









(** *** Keys of an encoding *)

(** The keys of the members of an object. *)
Definition keys (j : JSON) : list string :=
  match j with
  | JObject members => map fst members
  | _ => []
  end.

(** The value of the first member with a given key. *)
Definition member (key : string) (j : JSON) : option JSON :=
  match j with
  | JObject members =>
      option_map snd (find (fun m => String.eqb (fst m) key) members)
  | _ => None
  end.

(** Whether a key occurs in the value, at any depth. *)
Fixpoint hasKey (key : string) (j : JSON) : bool :=
  match j with
  | JArray elems =>
      (fix any (l : list JSON) : bool :=
         match l with
         | [] => false
         | x :: r => hasKey key x || any r
         end) elems
  | JObject members =>
      (fix any (l : list (string * JSON)) : bool :=
         match l with
         | [] => false
         | (k, x) :: r => String.eqb k key || hasKey key x || any r
         end) members
  | _ => false
  end.

End json.

Import reflect json.

(* ================================================================== *)
(** ** The data model of the package *)
(* ================================================================== *)

(** Chat message roles defined by the OpenAI API. *)
Definition ChatMessageRoleSystem : string := "system".
Definition ChatMessageRoleUser : string := "user".
Definition ChatMessageRoleAssistant : string := "assistant".
Definition ChatMessageRoleFunction : string := "function".

(** [type Arguments string]: the arguments of a function call, kept
    undecoded. *)
Definition Arguments : Type := string.

(** [func (a Arguments) String() string] *)
Definition Arguments_String (a : Arguments) : string := a.

Module FunctionCall.

Record t : Type := mk {
  Name : string;            (* `json:"name,omitempty"` *)
  Arguments : Arguments     (* `json:"arguments,omitempty"` *)
}.

(** [==] on two values of the struct. *)
Definition eqb (a b : t) : bool :=
  String.eqb (Name a) (Name b) && String.eqb (Arguments a) (Arguments b).

Definition type : reflect.type :=
  Struct [ mkStructField "Name" String "name,omitempty" false;
           mkStructField "Arguments" String "arguments,omitempty" false ].

Definition value (f : t) : reflect.value :=
  VStruct [ VString (Name f); VString (Arguments f) ].

Definition of_value (v : reflect.value) : option t :=
  match v with
  | VStruct [ VString n; VString a ] => Some (mk n a)
  | _ => None
  end.

End FunctionCall.

Definition FunctionCall : Type := FunctionCall.t.

(** [var zeroFunctionCall = FunctionCall{}] *)
Definition zeroFunctionCall : FunctionCall :=
  {| FunctionCall.Name := ""; FunctionCall.Arguments := "" |}.

Module ChatCompletionMessage.

Record t : Type := mk {
  Role : string;                 (* `json:"role"` *)
  Content : string;              (* `json:"content"` *)
  FunctionCall : FunctionCall;   (* `json:"function_call,omitempty"` *)
  Name : string                  (* `json:"name,omitempty"` *)
}.

Definition type : reflect.type :=
  Struct [ mkStructField "Role" String "role" false;
           mkStructField "Content" String "content" false;
           mkStructField "FunctionCall" FunctionCall.type
                         "function_call,omitempty" false;
           mkStructField "Name" String "name,omitempty" false ].

Definition value (c : t) : reflect.value :=
  VStruct [ VString (Role c); VString (Content c);
            FunctionCall.value (FunctionCall c); VString (Name c) ].

Definition of_value (v : reflect.value) : option t :=
  match v with
  | VStruct [ VString r; VString c; f; VString n ] =>
      match FunctionCall.of_value f with
      | Some fc => Some (mk r c fc n)
      | None => None
      end
  | _ => None
  end.

End ChatCompletionMessage.

Definition ChatCompletionMessage : Type := ChatCompletionMessage.t.

Module ChatCompletionStreamChoiceDelta.

Record t : Type := mk {
  Content : string;              (* `json:"content,omitempty"` *)
  Role : string;                 (* `json:"role,omitempty"` *)
  FunctionCall : FunctionCall    (* `json:"function_call,omitempty"` *)
}.

Definition type : reflect.type :=
  Struct [ mkStructField "Content" String "content,omitempty" false;
           mkStructField "Role" String "role,omitempty" false;
           mkStructField "FunctionCall" FunctionCall.type
                         "function_call,omitempty" false ].

Definition value (c : t) : reflect.value :=
  VStruct [ VString (Content c); VString (Role c);
            FunctionCall.value (FunctionCall c) ].

End ChatCompletionStreamChoiceDelta.

Definition ChatCompletionStreamChoiceDelta : Type :=
  ChatCompletionStreamChoiceDelta.t.

(* ================================================================== *)
(** ** The conditional serializer: [MarshalJSON] *)
(* ================================================================== *)

(** The types of the two anonymous structs that [MarshalJSON] encodes, for
    an [Alias] type:

    [struct { FunctionCall *FunctionCall `json:"function_call,omitempty"`;
              Alias }]

    [struct { *Alias;
              FunctionCall *FunctionCall `json:"function_call,omitempty"` }]

    In both, the field [FunctionCall] of the struct itself and the promoted
    field [Alias.FunctionCall] have the JSON name [function_call]. *)
Definition aliasWithoutFunctionCall (Alias : reflect.type) : reflect.type :=
  Struct [ mkStructField "FunctionCall" (Pointer FunctionCall.type)
                         "function_call,omitempty" false;
           mkStructField "Alias" Alias "" true ].

Definition aliasWithFunctionCall (Alias : reflect.type) : reflect.type :=
  Struct [ mkStructField "Alias" (Pointer Alias) "" true;
           mkStructField "FunctionCall" (Pointer FunctionCall.type)
                         "function_call,omitempty" false ].

(** [func (c ChatCompletionMessage) MarshalJSON() ([]byte, error)].

    [type Alias ChatCompletionMessage]: [Alias] has the struct type of the
    message and none of its methods.  [None] stands for the error result. *)
Definition ChatCompletionMessage_MarshalJSON (c : ChatCompletionMessage)
  : option JSON :=
  let Alias := ChatCompletionMessage.type in
  if FunctionCall.eqb (ChatCompletionMessage.FunctionCall c) zeroFunctionCall
  then
    Marshal
      (Pointer (aliasWithoutFunctionCall Alias))
      (VPointer (Some (VStruct
         [ (* FunctionCall: *) VPointer None;
           (* Alias: *) ChatCompletionMessage.value c ])))
  else
    Marshal
      (Pointer (aliasWithFunctionCall Alias))
      (VPointer (Some (VStruct
         [ (* Alias: *) VPointer (Some (ChatCompletionMessage.value c));
           (* FunctionCall: *)
           VPointer (Some (FunctionCall.value
                             (ChatCompletionMessage.FunctionCall c))) ]))).

(** [func (c ChatCompletionStreamChoiceDelta) MarshalJSON() ([]byte, error)],
    with [type Alias ChatCompletionStreamChoiceDelta]. *)
Definition ChatCompletionStreamChoiceDelta_MarshalJSON
           (c : ChatCompletionStreamChoiceDelta) : option JSON :=
  let Alias := ChatCompletionStreamChoiceDelta.type in
  if FunctionCall.eqb (ChatCompletionStreamChoiceDelta.FunctionCall c)
                      zeroFunctionCall
  then
    Marshal
      (Pointer (aliasWithoutFunctionCall Alias))
      (VPointer (Some (VStruct
         [ (* FunctionCall: *) VPointer None;
           (* Alias: *) ChatCompletionStreamChoiceDelta.value c ])))
  else
    Marshal
      (Pointer (aliasWithFunctionCall Alias))
      (VPointer (Some (VStruct
         [ (* Alias: *)
           VPointer (Some (ChatCompletionStreamChoiceDelta.value c));
           (* FunctionCall: *)
           VPointer (Some (FunctionCall.value
                             (ChatCompletionStreamChoiceDelta.FunctionCall c)))
         ]))).


(** [type JSONSchemaType string] *)
Definition JSONSchemaType : Type := string.
Definition JSONSchemaTypeObject : JSONSchemaType := "object".
Definition JSONSchemaTypeNumber : JSONSchemaType := "number".
Definition JSONSchemaTypeString : JSONSchemaType := "string".
Definition JSONSchemaTypeArray : JSONSchemaType := "array".
Definition JSONSchemaTypeNull : JSONSchemaType := "null".
Definition JSONSchemaTypeBoolean : JSONSchemaType := "boolean".

(** [Properties] is a map from property names to [*JSONSchema]: a list of
    bindings, a nil pointer being [None]. *)
Inductive JSONSchema : Type :=
  mkJSONSchema (Type_ : JSONSchemaType) (Description : string)
               (Enum : list string)
               (Properties : list (string * option JSONSchema))
               (Required : list string).

Module FuncParameters.
Record t : Type := mk {
  Type_ : JSONSchemaType;
  Properties : list (string * JSONSchema);
  Required : list string
}.
End FuncParameters.

Module Functions.
Record t : Type := mk {
  Name : string;
  Description : string;
  Parameters : FuncParameters.t
}.
End Functions.

(** A [float32] is carried as its IEEE-754 bit pattern; nothing here
    computes on it. *)
Definition float32 : Type := N.

Module ChatCompletionRequest.

(** [ChatCompletionRequest] represents a request structure for chat
    completion API. *)
Record t : Type := mk {
  Model : string;
  Messages : list ChatCompletionMessage;
  MaxTokens : Z;
  Temperature : float32;
  TopP : float32;
  N : Z;
  Stream : bool;
  Stop : list string;
  PresencePenalty : float32;
  FrequencyPenalty : float32;
  LogitBias : list (string * Z);
  User : string;
  Functions : list Functions.t
}.

(** [request.Stream = b] *)
Definition set_Stream (b : bool) (r : t) : t :=
  mk (Model r) (Messages r) (MaxTokens r) (Temperature r) (TopP r) (N r)
     b (Stop r) (PresencePenalty r) (FrequencyPenalty r) (LogitBias r)
     (User r) (Functions r).

Definition zero : t :=
  mk "" [] 0%Z 0%N 0%N 0%Z false [] 0%N 0%N [] "" [].

End ChatCompletionRequest.

Definition ChatCompletionRequest : Type := ChatCompletionRequest.t.

(** [type FinishReason string] *)
Definition FinishReason : Type := string.
Definition FinishReasonStop : FinishReason := "stop".
Definition FinishReasonLength : FinishReason := "length".
Definition FinishReasonFunctionCall : FinishReason := "function_call".
Definition FinishReasonContentFilter : FinishReason := "content_filter".
Definition FinishReasonNull : FinishReason := "null".

Module ChatCompletionChoice.
Record t : Type := mk {
  Index : Z;
  Message : ChatCompletionMessage;
  FinishReason : FinishReason
}.
End ChatCompletionChoice.

Module ChatCompletionResponse.
(** [Usage] is declared outside these files; the response is generic in
    it. *)
Record t (Usage : Type) : Type := mk {
  ID : string;
  Object : string;
  Created : Z;
  Model : string;
  Choices : list ChatCompletionChoice.t;
  Usage_ : Usage
}.
Arguments mk {Usage} _ _ _ _ _ _.

(** The zero value, which the named result [response] holds on entry. *)
Definition zero {Usage : Type} (zeroUsage : Usage) : t Usage :=
  mk "" "" 0%Z "" [] zeroUsage.
End ChatCompletionResponse.

Module ChatCompletionStreamChoice.
Record t : Type := mk {
  Index : Z;
  Delta : ChatCompletionStreamChoiceDelta;
  FinishReason : FinishReason
}.
End ChatCompletionStreamChoice.

Module ChatCompletionStreamResponse.
Record t : Type := mk {
  ID : string;
  Object : string;
  Created : Z;
  Model : string;
  Choices : list ChatCompletionStreamChoice.t
}.
End ChatCompletionStreamResponse.

Definition ChatCompletionStreamResponse : Type :=
  ChatCompletionStreamResponse.t.

(** The errors of the package ([errors.New] values), and the errors that
    come from the collaborators. *)
Inductive error : Type :=
| ErrChatCompletionInvalidModel
| ErrChatCompletionStreamNotSupported
| ErrModelNotSupportedWithPlugins
| ErrOther (description : string).

(** [err.Error()] *)
Definition Error (e : error) : string :=
  match e with
  | ErrChatCompletionInvalidModel =>
      "this model is not supported with this method, please use CreateCompletion client method instead"
  | ErrChatCompletionStreamNotSupported =>
      "streaming is not supported with this method, please use CreateChatCompletionStream"
  | ErrModelNotSupportedWithPlugins =>
      "this model is not supported with plugins"
  | ErrOther d => d
  end.

(* ================================================================== *)
(** ** The streaming reader *)
(* ================================================================== *)

(** Modelled from the spec: what reading the next newline-terminated line
    from the connection gives, a line or a read failure. *)
Inductive read : Type :=
| Line (raw : string)
| ReadError (cause : error).

(** A response body is the sequence of reads still to come; after the last
    one the stream ends cleanly (no more bytes, no error). *)
Definition Body : Type := list read.

Module http.
Definition MethodPost : string := "POST".

Record Response : Type := mkResponse {
  StatusCode : Z;
  Body : Body
}.
End http.

(** Modelled from the spec: why a stream failed (the causes of the
    [Failed] outcome of section 4.3). *)
Inductive Cause : Type :=
| ReadFailure (underlying : error)
| EmptyStreamExceeded
| DecodeError (accumulated : string).

(** Modelled from the spec: the terminal outcomes of a stream. *)
Inductive StreamOutcome : Type :=
| Done
| Failed (cause : Cause).

(** Modelled from the spec: the result of one [recv()],
    [Result<Event, Outcome{Done, Failed(cause)}>]. *)
Inductive RecvResult (T : Type) : Type :=
| Received (event : T)
| Ended (outcome : StreamOutcome).
Arguments Received {T} _.
Arguments Ended {T} _.

(** Modelled from the spec: [streamReader[T]], whose declaration and whose
    [Recv] are not in these files.  The first five fields are the ones
    [CreateChatCompletionStream] sets.  The spec gives the reader an
    empty-message counter and the states Open and Closed: [closed] is [None]
    while the reader is open and holds the terminal outcome afterwards.  A
    new reader is open and its counter is zero. *)
Record streamReader (T : Type) : Type := mkStreamReader {
  emptyMessagesLimit : nat;
  reader : Body;
  response : http.Response;
  errAccumulator : string;
  unmarshaler : string -> option T;
  emptyMessagesCount : nat;
  closed : option StreamOutcome
}.
Arguments mkStreamReader {T} _ _ _ _ _ _ _.
Arguments emptyMessagesLimit {T} _.
Arguments reader {T} _.
Arguments response {T} _.
Arguments errAccumulator {T} _.
Arguments unmarshaler {T} _.
Arguments emptyMessagesCount {T} _.
Arguments closed {T} _.

(** [utils.NewErrorAccumulator()]: an empty buffer. *)
Definition NewErrorAccumulator : string := "".

(** [bufio.NewReader(body)] *)
Definition NewReader (body : Body) : Body := body.

Definition isNewline (c : ascii) : bool :=
  Ascii.eqb c "010" || Ascii.eqb c "013".

(** Modelled from the spec: step 2 of [recv] trims the trailing carriage
    returns and newlines of a line. *)
Fixpoint trimNewline (s : string) : string :=
  match s with
  | EmptyString => EmptyString
  | String.String c r =>
      match trimNewline r with
      | EmptyString => if isNewline c then EmptyString
                       else String.String c EmptyString
      | r' => String.String c r'
      end
  end.

(** Modelled from the spec: the prefix of an event line ([data: <payload>])
    and the payload of the termination sentinel ([data: [DONE]]). *)
Definition headerData : string := "data: ".
Definition doneSentinel : string := "[DONE]".

(** The rest of [s] after the prefix [p], when [s] begins with [p]. *)
Fixpoint cutPrefix (p s : string) : option string :=
  match p, s with
  | EmptyString, _ => Some s
  | String.String a p', String.String b s' =>
      if Ascii.eqb a b then cutPrefix p' s' else None
  | String.String _ _, EmptyString => None
  end.

Section Recv.
Context {T : Type}.

(** Modelled from the spec: steps 1 to 4 of [recv], on the reads still to
    come.  The result is the outcome, the reads left, the counter and the
    error accumulator.

    1. Read the next line: a read failure fails the stream, the clean end
       of the stream ends it with [Done].
    2. Trim the line; an empty line increments the counter, and fails the
       stream when the counter exceeds the tolerance; otherwise go on with
       the next line.
    3. A line without the event-data prefix is skipped; the sentinel after
       the prefix ends the stream with [Done].
    4. Otherwise decode the payload: a failure feeds the bytes to the error
       accumulator and fails the stream; a success resets the counter to
       zero and gives [Received]. *)
Fixpoint recvLines (limit : nat) (decode : string -> option T)
         (count : nat) (acc : string) (rd : Body)
  : RecvResult T * (Body * nat * string) :=
  match rd with
  | [] => (Ended Done, (rd, count, acc))
  | ReadError cause :: rest =>
      (Ended (Failed (ReadFailure cause)), (rest, count, acc))
  | Line raw :: rest =>
      let line := trimNewline raw in
      if String.eqb line EmptyString then
        let count' := S count in
        if (limit <? count')%nat
        then (Ended (Failed EmptyStreamExceeded), (rest, count', acc))
        else recvLines limit decode count' acc rest
      else
        match cutPrefix headerData line with
        | None => recvLines limit decode count acc rest
        | Some payload =>
            if String.eqb payload doneSentinel
            then (Ended Done, (rest, count, acc))
            else
              match decode payload with
              | None =>
                  let acc' := (acc ++ payload)%string in
                  (Ended (Failed (DecodeError acc')), (rest, count, acc'))
              | Some event => (Received event, (rest, O, acc))
              end
        end
  end.

(** Modelled from the spec: [recv()].  A closed reader gives its terminal
    outcome again and no event; an open reader runs the steps above and
    closes on a terminal outcome. *)
Definition Recv (stream : streamReader T)
  : RecvResult T * streamReader T :=
  match closed stream with
  | Some outcome => (Ended outcome, stream)
  | None =>
      let '(result, (rest, count, acc)) :=
        recvLines (emptyMessagesLimit stream) (unmarshaler stream)
                  (emptyMessagesCount stream) (errAccumulator stream)
                  (reader stream) in
      (result,
       mkStreamReader (emptyMessagesLimit stream) rest (response stream)
                      acc (unmarshaler stream) count
                      (match result with
                       | Received _ => None
                       | Ended outcome => Some outcome
                       end))
  end.

(** The results of [n] successive calls of [Recv]. *)
Fixpoint RecvN (n : nat) (stream : streamReader T) : list (RecvResult T) :=
  match n with
  | O => []
  | S n' => let '(result, stream') := Recv stream in
            result :: RecvN n' stream'
  end.

Definition isReceived (r : RecvResult T) : bool :=
  match r with Received _ => true | Ended _ => false end.

End Recv.

(** A line that is empty once trimmed. *)
Definition blank (raw : string) : Prop := trimNewline raw = EmptyString.

(** A line that is not empty and does not begin with the event-data prefix:
    protocol noise, which the reader skips. *)
Definition noise (raw : string) : Prop :=
  trimNewline raw <> EmptyString
  /\ cutPrefix headerData (trimNewline raw) = None.

(** [ChatCompletionStream] wraps [*streamReader[ChatCompletionStreamResponse]]
*)
Record ChatCompletionStream : Type := mkChatCompletionStream {
  streamReader_ : streamReader ChatCompletionStreamResponse
}.

(* ================================================================== *)
(** ** The client and its two chat-completion entry points *)
(* ================================================================== *)

Section Client.

(** Types of the libraries: [context.Context], [*http.Request]; and
    [Usage], declared elsewhere in the package. *)
Variables (Context Request Usage : Type).

(** The request-building collaborator ([utils.RequestBuilder]). *)
Record RequestBuilder : Type := mkRequestBuilder {
  Build : Context -> string -> string -> ChatCompletionRequest
          -> Request + error
}.

(** The HTTP transport ([*http.Client]). *)
Record HTTPClient : Type := mkHTTPClient {
  Do : Request -> http.Response + error
}.

Record ClientConfig : Type := mkClientConfig {
  HTTPClient_ : HTTPClient;
  EmptyMessagesLimit : nat
}.

Record Client : Type := mkClient {
  config : ClientConfig;
  requestBuilder : RequestBuilder
}.

(** The functions and methods of the package that the entry points call
    and that are declared in other files. *)
Record Package : Type := mkPackage {
  zeroUsage : Usage;
  checkModelSupportsPlugins : string -> bool;
  checkEndpointSupportsModel : string -> string -> bool;
  fullURL : Client -> string -> string -> string;
  newStreamRequest :
    Client -> Context -> string -> string -> ChatCompletionRequest
    -> string -> Request + error;
  sendRequest :
    Client -> Request -> ChatCompletionResponse.t Usage
    -> ChatCompletionResponse.t Usage * option error;
  isFailureStatusCode : http.Response -> bool;
  handleErrorResp : Client -> http.Response -> error;
  JSONUnmarshaler : string -> option ChatCompletionStreamResponse
}.

(** A call to a collaborator: building a request, or sending one over the
    network. *)
Inductive call : Type :=
| BuildCall (method url : string) (body : ChatCompletionRequest)
| NewStreamRequestCall (method urlSuffix : string)
                       (body : ChatCompletionRequest) (model : string)
| DoCall (req : Request)
| SendRequestCall (req : Request).

(** The state the entry points run in: the request variables (the
    caller's, and the parameter [request] of a running call), addressed by
    position, and the log of the calls made to the collaborators. *)
Record state : Type := mkState {
  vars : list ChatCompletionRequest;
  calls : list call
}.

Definition M (A : Type) : Type := state -> A * state.

Definition ret {A : Type} (a : A) : M A := fun s => (a, s).

Definition bind {A B : Type} (m : M A) (k : A -> M B) : M B :=
  fun s => let '(a, s') := m s in k a s'.

(** A new variable holding a copy of [v]: how a parameter passed by value
    comes into being. *)
Definition alloc (v : ChatCompletionRequest) : M nat :=
  fun s => (List.length (vars s), mkState (vars s ++ [v]) (calls s)).

Definition load (x : nat) : M ChatCompletionRequest :=
  fun s => (nth x (vars s) ChatCompletionRequest.zero, s).

Fixpoint update (x : nat) (v : ChatCompletionRequest)
         (l : list ChatCompletionRequest) : list ChatCompletionRequest :=
  match x, l with
  | _, [] => []
  | O, _ :: r => v :: r
  | S x', y :: r => y :: update x' v r
  end.

Definition store (x : nat) (v : ChatCompletionRequest) : M unit :=
  fun s => (tt, mkState (update x v (vars s)) (calls s)).

(** A call to a collaborator, logged, with its result. *)
Definition invoke {A : Type} (c : call) (result : A) : M A :=
  fun s => (result, mkState (vars s) (calls s ++ [c])).

Notation "x <- m ;; k" := (bind m (fun x => k))
  (at level 61, m at next level, right associativity).
Notation "m ;;; k" := (bind m (fun _ => k))
  (at level 61, right associativity).

Variable P : Package.

(** [CreateChatCompletion] — API call to Create a completion for the chat
    message.  [arg] is the value the caller passes; the parameter [request]
    is a variable of the call that holds a copy of it.  The results are the
    named results [(response, err)]. *)
Definition CreateChatCompletion (c : Client) (ctx : Context)
           (arg : ChatCompletionRequest)
  : M (ChatCompletionResponse.t Usage * option error) :=
  request <- alloc arg ;;
  let response := ChatCompletionResponse.zero (zeroUsage P) in
  r <- load request ;;
  if ChatCompletionRequest.Stream r then
    ret (response, Some ErrChatCompletionStreamNotSupported)
  else
  r <- load request ;;
  if negb (checkModelSupportsPlugins P (ChatCompletionRequest.Model r)) then
    ret (response, Some ErrModelNotSupportedWithPlugins)
  else
  let urlSuffix := "/chat/completions" in
  r <- load request ;;
  if negb (checkEndpointSupportsModel P urlSuffix
             (ChatCompletionRequest.Model r)) then
    ret (response, Some ErrChatCompletionInvalidModel)
  else
  r <- load request ;;
  let url := fullURL P c urlSuffix (ChatCompletionRequest.Model r) in
  built <- invoke (BuildCall http.MethodPost url r)
                  (Build (requestBuilder c) ctx http.MethodPost url r) ;;
  match built with
  | inr err => ret (response, Some err)
  | inl req =>
      invoke (SendRequestCall req) (sendRequest P c req response)
  end.

(** [CreateChatCompletionStream] — API call to create a chat completion
    w/ streaming support.  [arg] is the value the caller passes; the
    parameter [request] is a variable of the call that holds a copy of it.
    The results are the named results [(stream, err)]; a nil [stream] is
    [None]. *)
Definition CreateChatCompletionStream (c : Client) (ctx : Context)
           (arg : ChatCompletionRequest)
  : M (option ChatCompletionStream * option error) :=
  request <- alloc arg ;;
  r <- load request ;;
  if negb (checkModelSupportsPlugins P (ChatCompletionRequest.Model r)) then
    ret (None, Some ErrModelNotSupportedWithPlugins)
  else
  let urlSuffix := "/chat/completions" in
  r <- load request ;;
  if negb (checkEndpointSupportsModel P urlSuffix
             (ChatCompletionRequest.Model r)) then
    ret (None, Some ErrChatCompletionInvalidModel)
  else
  r <- load request ;;
  store request (ChatCompletionRequest.set_Stream true r) ;;;
  r <- load request ;;
  built <- invoke (NewStreamRequestCall "POST" urlSuffix r
                                        (ChatCompletionRequest.Model r))
                  (newStreamRequest P c ctx "POST" urlSuffix r
                                    (ChatCompletionRequest.Model r)) ;;
  match built with
  | inr err => ret (None, Some err)
  | inl req =>
      done <- invoke (DoCall req) (Do (HTTPClient_ (config c)) req) ;;
      match done with
      | inr err => ret (None, Some err)
      | inl resp =>
          if isFailureStatusCode P resp then
            ret (None, Some (handleErrorResp P c resp))
          else
            ret (Some (mkChatCompletionStream
                         (mkStreamReader
                            (EmptyMessagesLimit (config c))
                            (NewReader (http.Body resp))
                            resp
                            NewErrorAccumulator
                            (JSONUnmarshaler P)
                            (* the fields not set are zero: *)
                            O
                            None)),
                 None)
      end
  end.

End Client.

Arguments Build {Context Request} _ _ _ _ _.
Arguments Do {Request} _ _.
Arguments HTTPClient_ {Request} _.
Arguments EmptyMessagesLimit {Request} _.
Arguments config {Context Request} _.
Arguments requestBuilder {Context Request} _.
Arguments vars {Request} _.
Arguments calls {Request} _.
Arguments mkState {Request} _ _.
Arguments BuildCall {Request} _ _ _.
Arguments NewStreamRequestCall {Request} _ _ _ _.
Arguments DoCall {Request} _.
Arguments SendRequestCall {Request} _.
Arguments zeroUsage {Context Request Usage} _.
Arguments checkModelSupportsPlugins {Context Request Usage} _ _.
Arguments checkEndpointSupportsModel {Context Request Usage} _ _ _.
Arguments fullURL {Context Request Usage} _ _ _ _.
Arguments newStreamRequest {Context Request Usage} _ _ _ _ _ _ _.
Arguments sendRequest {Context Request Usage} _ _ _ _.
Arguments isFailureStatusCode {Context Request Usage} _ _.
Arguments handleErrorResp {Context Request Usage} _ _ _.
Arguments JSONUnmarshaler {Context Request Usage} _ _.
Arguments CreateChatCompletion {Context Request Usage} P c ctx arg _.
Arguments CreateChatCompletionStream {Context Request Usage} P c ctx arg _.

(** The URL suffix of the chat-completion endpoint, the value of the local
    variable [urlSuffix] of both entry points. *)
Definition urlSuffix : string := "/chat/completions".

(** What a string field tagged [omitempty] contributes to an object. *)
Definition omitempty (key value : string) : list (string * JSON) :=
  if String.eqb value EmptyString then [] else [(key, JString value)].



(** The ["function_call"] member that [MarshalJSON] writes for a function
    call: none for the zero value, else the object of its non-empty
    sub-fields. *)
Definition functionCallMember (f : FunctionCall) : list (string * JSON) :=
  if FunctionCall.eqb f zeroFunctionCall then []
  else [("function_call",
         JObject (omitempty "name" (FunctionCall.Name f)
                  ++ omitempty "arguments" (FunctionCall.Arguments f)))].


(** Whether a JSON value is built from objects and strings only: no
    [null], number, boolean or array in it. *)
Fixpoint stringsOnly (j : JSON) : bool :=
  match j with
  | JString _ => true
  | JObject members =>
      (fix all (l : list (string * JSON)) : bool :=
         match l with
         | [] => true
         | (_, x) :: r => stringsOnly x && all r
         end) members
  | _ => false
  end.

(* ================================================================== *)
(** ** A client over a scripted transport *)
(* ================================================================== *)

Module Demo.

(** A built request: the URL and the body. *)
Definition Request : Type := (string * ChatCompletionRequest)%type.

Definition pluginModels : list string :=
  ["gpt-3.5-turbo-0613"; "gpt-4-0613"; "code-davinci-002"].

Definition chatModels : list string :=
  ["gpt-3.5-turbo"; "gpt-3.5-turbo-0613"; "gpt-4"; "gpt-4-0613"].

Definition baseURL : string := "https://api.openai.com/v1".

Definition builder : RequestBuilder unit Request :=
  mkRequestBuilder unit Request (fun _ _ url body => inl (url, body)).

(** A transport that answers every request with [resp]. *)
Definition transport (resp : http.Response) : HTTPClient Request :=
  mkHTTPClient Request (fun _ => inl resp).

Definition client (resp : http.Response) (limit : nat)
  : Client unit Request :=
  mkClient unit Request (mkClientConfig Request (transport resp) limit)
           builder.

(** The reading of a status the spec gives: a failure is a status that is
    not 2xx. *)
Definition non2xx (resp : http.Response) : bool :=
  ((http.StatusCode resp <? 200) || (300 <=? http.StatusCode resp))%Z.

Definition package : Package unit Request unit :=
  mkPackage unit Request unit
    tt
    (fun model => existsb (String.eqb model) pluginModels)
    (fun urlSuffix model =>
       negb (String.eqb urlSuffix "/chat/completions")
       || existsb (String.eqb model) chatModels)
    (fun _ urlSuffix _ => (baseURL ++ urlSuffix)%string)
    (fun _ _ _ urlSuffix body _ =>
       inl ((baseURL ++ urlSuffix)%string, body))
    (fun _ _ response => (response, None))
    non2xx
    (fun _ resp => ErrOther "error, status code")
    (fun _ => None).

Definition request (model : string) (stream : bool)
  : ChatCompletionRequest :=
  ChatCompletionRequest.mk
    model [ChatCompletionMessage.mk "user" "hi" zeroFunctionCall ""]
    0%Z 0%N 0%N 0%Z stream [] 0%N 0%N [] "" [].

Definition start : state Request := mkState [] [].

(** A state in which a caller holds a request in variable 0. *)
Definition held (r : ChatCompletionRequest) : state Request :=
  mkState [r] [].

Definition ok (body : Body) : http.Response := http.mkResponse 200 body.
Definition notFound : http.Response := http.mkResponse 404 [].

Definition LF : string := String.String "010" EmptyString.
Definition CRLF : string := String.String "013" LF.

(** Two keep-alive lines, and an event line with the payload [{}]. *)
Definition keepAlive : list string := [LF; CRLF].
Definition eventLine : string := ("data: {}" ++ LF)%string.

(** A new reader of raw payloads over [body], with tolerance [limit]. *)
Definition rawReader (limit : nat) (body : Body) : streamReader string :=
  mkStreamReader limit (NewReader body) (ok body) NewErrorAccumulator
                 (fun payload => Some payload) O None.

End Demo.

(* ================================================================== *)
(** ** Collaborators that fail *)
(* ================================================================== *)

Module Faulty.

Definition buildError : error := ErrOther "json: unsupported value".
Definition dialError : error := ErrOther "dial tcp: connection refused".

(** A request builder that fails. *)
Definition builder : RequestBuilder unit Demo.Request :=
  mkRequestBuilder unit Demo.Request (fun _ _ _ _ => inr buildError).

(** A transport without a network. *)
Definition transport : HTTPClient Demo.Request :=
  mkHTTPClient Demo.Request (fun _ => inr dialError).

(** A client whose request builder fails. *)
Definition cannotBuild : Client unit Demo.Request :=
  mkClient unit Demo.Request
           (mkClientConfig Demo.Request (Demo.transport Demo.notFound) 300)
           builder.

(** A client whose transport fails. *)
Definition offline : Client unit Demo.Request :=
  mkClient unit Demo.Request
           (mkClientConfig Demo.Request transport 300) Demo.builder.

End Faulty.

(* ================================================================== *)
(** ** Theorems: the conditional serializer *)
(* ================================================================== *)

(** The JSON fields of the two anonymous structs, for a message: the field
    of the struct itself is the one named [function_call]; the promoted
    one, a level deeper, is hidden. *)
Lemma fields_without_function_call :
  map (fun f => (name f, index f))
      (typeFields (aliasWithoutFunctionCall ChatCompletionMessage.type))
  = [("function_call", [0]); ("role", [1; 0]); ("content", [1; 1]);
     ("name", [1; 3])]%nat.
Proof. vm_compute. reflexivity. Qed.

Lemma fields_with_function_call :
  map (fun f => (name f, index f))
      (typeFields (aliasWithFunctionCall ChatCompletionMessage.type))
  = [("role", [0; 0]); ("content", [0; 1]); ("name", [0; 3]);
     ("function_call", [1])]%nat.
Proof. vm_compute. reflexivity. Qed.

(** Without [MarshalJSON], the struct-valued field is encoded even when it
    is the zero value: [omitempty] never omits a struct.  This is what the
    method is there to avoid. *)
Lemma default_encoding_keeps_function_call (role content : string) :
  Marshal ChatCompletionMessage.type
          (ChatCompletionMessage.value
             (ChatCompletionMessage.mk role content zeroFunctionCall ""))
  = Some (JObject [("role", JString role); ("content", JString content);
                   ("function_call", JObject [])]).
Proof. vm_compute. reflexivity. Qed.

(** The encoding of a message whose function call is the zero value: the
    role and the content, then the name unless it is empty. *)
Lemma ChatCompletionMessage_MarshalJSON_zero (role content name : string) :
  ChatCompletionMessage_MarshalJSON
    (ChatCompletionMessage.mk role content zeroFunctionCall name)
  = Some (JObject ([("role", JString role); ("content", JString content)]
                   ++ omitempty "name" name)).
Proof. destruct name; vm_compute; reflexivity. Qed.

(** The encoding of a message whose function call is not the zero value. *)
Lemma ChatCompletionMessage_MarshalJSON_set
      (role content name : string) (f : FunctionCall) :
  f <> zeroFunctionCall ->
  ChatCompletionMessage_MarshalJSON
    (ChatCompletionMessage.mk role content f name)
  = Some (JObject
            ([("role", JString role); ("content", JString content)]
             ++ omitempty "name" name
             ++ [("function_call",
                  JObject (omitempty "name" (FunctionCall.Name f)
                           ++ omitempty "arguments"
                                        (FunctionCall.Arguments f)))])).
Proof.
  destruct f as [n a]; intros Hf.
  destruct n, a; try (exfalso; apply Hf; reflexivity);
    destruct name; vm_compute; reflexivity.
Qed.

(** The encoding of a delta whose function call is the zero value. *)
Lemma ChatCompletionStreamChoiceDelta_MarshalJSON_zero (content role : string) :
  ChatCompletionStreamChoiceDelta_MarshalJSON
    (ChatCompletionStreamChoiceDelta.mk content role zeroFunctionCall)
  = Some (JObject (omitempty "content" content ++ omitempty "role" role)).
Proof. destruct content, role; vm_compute; reflexivity. Qed.

(** The encoding of a delta whose function call is not the zero value. *)
Lemma ChatCompletionStreamChoiceDelta_MarshalJSON_set
      (content role : string) (f : FunctionCall) :
  f <> zeroFunctionCall ->
  ChatCompletionStreamChoiceDelta_MarshalJSON
    (ChatCompletionStreamChoiceDelta.mk content role f)
  = Some (JObject
            (omitempty "content" content ++ omitempty "role" role
             ++ [("function_call",
                  JObject (omitempty "name" (FunctionCall.Name f)
                           ++ omitempty "arguments"
                                        (FunctionCall.Arguments f)))])).
Proof.
  destruct f as [n a]; intros Hf.
  destruct n, a; try (exfalso; apply Hf; reflexivity);
    destruct content, role; vm_compute; reflexivity.
Qed.

(** C1. For every message and every delta whose [FunctionCall] field equals
    the zero [FunctionCall] value, [MarshalJSON] succeeds and the JSON it
    produces has no ["function_call"] key, at any depth. *)
Theorem zero_function_call_is_omitted
        (c : ChatCompletionMessage) (d : ChatCompletionStreamChoiceDelta) :
  ChatCompletionMessage.FunctionCall c = zeroFunctionCall ->
  ChatCompletionStreamChoiceDelta.FunctionCall d = zeroFunctionCall ->
  (exists j, ChatCompletionMessage_MarshalJSON c = Some j
             /\ ~ In "function_call" (keys j)
             /\ hasKey "function_call" j = false)
  /\ (exists j, ChatCompletionStreamChoiceDelta_MarshalJSON d = Some j
                /\ ~ In "function_call" (keys j)
                /\ hasKey "function_call" j = false).
Proof.
  destruct c as [role content f name], d as [dcontent drole df].
  simpl. intros -> ->. split.
  - eexists. split; [apply ChatCompletionMessage_MarshalJSON_zero|].
    split.
    + destruct name; simpl; intuition discriminate.
    + destruct name; reflexivity.
  - eexists. split; [apply ChatCompletionStreamChoiceDelta_MarshalJSON_zero|].
    split.
    + destruct dcontent, drole; simpl; intuition discriminate.
    + destruct dcontent, drole; reflexivity.
Qed.

Lemma zero_function_call_is_omitted_witness :
  (exists j,
      ChatCompletionMessage_MarshalJSON
        (ChatCompletionMessage.mk "user" "hi" zeroFunctionCall "") = Some j
      /\ ~ In "function_call" (keys j)
      /\ hasKey "function_call" j = false)
  /\ (exists j,
         ChatCompletionStreamChoiceDelta_MarshalJSON
           (ChatCompletionStreamChoiceDelta.mk "hel" "" zeroFunctionCall)
         = Some j
         /\ ~ In "function_call" (keys j)
         /\ hasKey "function_call" j = false).
Proof.
  apply (zero_function_call_is_omitted
           (ChatCompletionMessage.mk "user" "hi" zeroFunctionCall "")
           (ChatCompletionStreamChoiceDelta.mk "hel" "" zeroFunctionCall));
    reflexivity.
Defined.





(* ================================================================== *)
(** ** Theorems: the two entry points *)
(* ================================================================== *)

Section ClientTheorems.

Context {Context Request Usage : Type}.
Variable P : Package Context Request Usage.

Lemma update_parameter (l : list ChatCompletionRequest)
      (old new : ChatCompletionRequest) :
  update (List.length l) new (l ++ [old]) = l ++ [new].
Proof. induction l as [|x l IH]; simpl; [|rewrite IH]; reflexivity. Qed.

(** [CreateChatCompletion], path by path. *)
Lemma CreateChatCompletion_paths
      (c : Client Context Request) (ctx : Context)
      (arg : ChatCompletionRequest) (s : state Request) :
  CreateChatCompletion P c ctx arg s
  = let response := ChatCompletionResponse.zero (zeroUsage P) in
    let model := ChatCompletionRequest.Model arg in
    let entered := mkState (vars s ++ [arg]) (calls s) in
    if ChatCompletionRequest.Stream arg then
      ((response, Some ErrChatCompletionStreamNotSupported), entered)
    else if negb (checkModelSupportsPlugins P model) then
      ((response, Some ErrModelNotSupportedWithPlugins), entered)
    else if negb (checkEndpointSupportsModel P urlSuffix model) then
      ((response, Some ErrChatCompletionInvalidModel), entered)
    else
      let url := fullURL P c urlSuffix model in
      let built := BuildCall http.MethodPost url arg in
      match Build (requestBuilder c) ctx http.MethodPost url arg with
      | inr err =>
          ((response, Some err),
           mkState (vars s ++ [arg]) (calls s ++ [built]))
      | inl req =>
          (sendRequest P c req response,
           mkState (vars s ++ [arg])
                   (calls s ++ [built; SendRequestCall req]))
      end.
Proof.
  unfold CreateChatCompletion, bind, alloc, load, ret, invoke; cbn.
  rewrite nth_middle.
  destruct (ChatCompletionRequest.Stream arg); cbn; [reflexivity|].
  rewrite nth_middle.
  destruct (checkModelSupportsPlugins P _); cbn; [|reflexivity].
  rewrite nth_middle.
  destruct (checkEndpointSupportsModel P _ _); cbn; [|reflexivity].
  rewrite nth_middle.
  destruct (Build _ _ _ _ _); cbn; [|reflexivity].
  rewrite <- app_assoc. reflexivity.
Qed.

(** [CreateChatCompletionStream], path by path. *)
Lemma CreateChatCompletionStream_paths
      (c : Client Context Request) (ctx : Context)
      (arg : ChatCompletionRequest) (s : state Request) :
  CreateChatCompletionStream P c ctx arg s
  = let model := ChatCompletionRequest.Model arg in
    let entered := mkState (vars s ++ [arg]) (calls s) in
    if negb (checkModelSupportsPlugins P model) then
      ((None, Some ErrModelNotSupportedWithPlugins), entered)
    else if negb (checkEndpointSupportsModel P urlSuffix model) then
      ((None, Some ErrChatCompletionInvalidModel), entered)
    else
      let forced := ChatCompletionRequest.set_Stream true arg in
      let built := NewStreamRequestCall "POST" urlSuffix forced model in
      match newStreamRequest P c ctx "POST" urlSuffix forced model with
      | inr err =>
          ((None, Some err),
           mkState (vars s ++ [forced]) (calls s ++ [built]))
      | inl req =>
          let after :=
            mkState (vars s ++ [forced]) (calls s ++ [built; DoCall req]) in
          match Do (HTTPClient_ (config c)) req with
          | inr err => ((None, Some err), after)
          | inl resp =>
              if isFailureStatusCode P resp then
                ((None, Some (handleErrorResp P c resp)), after)
              else
                ((Some (mkChatCompletionStream
                          (mkStreamReader
                             (EmptyMessagesLimit (config c))
                             (NewReader (http.Body resp))
                             resp
                             NewErrorAccumulator
                             (JSONUnmarshaler P)
                             O
                             None)),
                  None), after)
          end
      end.
Proof.
  unfold CreateChatCompletionStream, bind, alloc, load, store, ret, invoke;
    cbn.
  rewrite nth_middle.
  destruct (checkModelSupportsPlugins P _); cbn; [|reflexivity].
  rewrite nth_middle.
  destruct (checkEndpointSupportsModel P _ _); cbn; [|reflexivity].
  rewrite nth_middle, update_parameter, nth_middle.
  change (ChatCompletionRequest.Model
            (ChatCompletionRequest.set_Stream true arg))
    with (ChatCompletionRequest.Model arg).
  destruct (newStreamRequest P _ _ _ _ _ _); cbn; [|reflexivity].
  rewrite <- app_assoc; cbn.
  destruct (Do _ _); cbn; [|reflexivity].
  destruct (isFailureStatusCode P _); reflexivity.
Qed.

(** C3. For every request with the [Stream] flag set,
    [CreateChatCompletion] returns the zero response and
    [ErrChatCompletionStreamNotSupported], and calls no collaborator: no
    request is built and nothing is sent over the transport. *)
Theorem stream_flag_rejected_without_io
        (c : Client Context Request) (ctx : Context)
        (request : ChatCompletionRequest) (s : state Request) :
  ChatCompletionRequest.Stream request = true ->
  fst (CreateChatCompletion P c ctx request s)
  = (ChatCompletionResponse.zero (zeroUsage P),
     Some ErrChatCompletionStreamNotSupported)
  /\ calls (snd (CreateChatCompletion P c ctx request s)) = calls s.
Proof.
  intros Hstream. rewrite CreateChatCompletion_paths. cbv zeta.
  rewrite Hstream. split; reflexivity.
Qed.

(** C9. The precondition checks of [CreateChatCompletion] run in a fixed
    order: the [Stream] flag, then the model capability, then the pairing
    of endpoint and model.  A request with [Stream] set gets
    [ErrChatCompletionStreamNotSupported] whatever the later checks say,
    so also when the model fails one of them; a request without [Stream]
    whose model fails the capability check gets
    [ErrModelNotSupportedWithPlugins] whatever the pairing check says; the
    invalid-model error is left for a model that passes the capability
    check. *)
Theorem precondition_checks_in_order
        (c : Client Context Request) (ctx : Context)
        (request : ChatCompletionRequest) (s : state Request) :
  let err := snd (fst (CreateChatCompletion P c ctx request s)) in
  let model := ChatCompletionRequest.Model request in
  (ChatCompletionRequest.Stream request = true ->
   err = Some ErrChatCompletionStreamNotSupported)
  /\ (ChatCompletionRequest.Stream request = true ->
      checkModelSupportsPlugins P model = false
      \/ checkEndpointSupportsModel P urlSuffix model = false ->
      err = Some ErrChatCompletionStreamNotSupported
      /\ err <> Some ErrModelNotSupportedWithPlugins
      /\ err <> Some ErrChatCompletionInvalidModel)
  /\ (ChatCompletionRequest.Stream request = false ->
      checkModelSupportsPlugins P model = false ->
      err = Some ErrModelNotSupportedWithPlugins)
  /\ (ChatCompletionRequest.Stream request = false ->
      checkModelSupportsPlugins P model = true ->
      checkEndpointSupportsModel P urlSuffix model = false ->
      err = Some ErrChatCompletionInvalidModel).
Proof.
  cbv zeta. rewrite CreateChatCompletion_paths. cbv zeta.
  split; [|split; [|split]].
  - intros ->. reflexivity.
  - intros -> _. split; [reflexivity | split; discriminate].
  - intros -> ->. reflexivity.
  - intros -> -> ->. reflexivity.
Qed.

(** C6. For every request whose model fails the capability check,
    [CreateChatCompletionStream] returns no stream and
    [ErrModelNotSupportedWithPlugins]; for every request whose model
    passes it and is not supported on the endpoint, no stream and
    [ErrChatCompletionInvalidModel], a different error.  In both cases no
    collaborator is called: no request is built and no connection is
    opened. *)
Theorem unsupported_model_rejected_without_connection
        (c : Client Context Request) (ctx : Context)
        (request : ChatCompletionRequest) (s : state Request) :
  let result := CreateChatCompletionStream P c ctx request s in
  let model := ChatCompletionRequest.Model request in
  (checkModelSupportsPlugins P model = false ->
   fst result = (None, Some ErrModelNotSupportedWithPlugins)
   /\ calls (snd result) = calls s)
  /\ (checkModelSupportsPlugins P model = true ->
      checkEndpointSupportsModel P urlSuffix model = false ->
      fst result = (None, Some ErrChatCompletionInvalidModel)
      /\ calls (snd result) = calls s)
  /\ ErrModelNotSupportedWithPlugins <> ErrChatCompletionInvalidModel.
Proof.
  cbv zeta. rewrite CreateChatCompletionStream_paths. cbv zeta.
  split; [|split].
  - intros ->. split; reflexivity.
  - intros -> ->. split; reflexivity.
  - discriminate.
Qed.

(** C4. Whatever the [Stream] flag of the request passed to
    [CreateChatCompletionStream], the request it builds carries the body
    of the caller with [Stream] set: every request-building call it makes
    has this body, the request it sends over the transport is the one
    built from this body, and when the model passes both checks the call
    does build a request. *)
Theorem stream_flag_forced
        (c : Client Context Request) (ctx : Context)
        (request : ChatCompletionRequest) (s : state Request) :
  let forced := ChatCompletionRequest.set_Stream true request in
  let model := ChatCompletionRequest.Model request in
  ChatCompletionRequest.Stream forced = true
  /\ exists made,
      calls (snd (CreateChatCompletionStream P c ctx request s))
      = calls s ++ made
      /\ (forall method suffix body m,
             In (NewStreamRequestCall method suffix body m) made ->
             body = forced /\ ChatCompletionRequest.Stream body = true)
      /\ (forall method url body, ~ In (BuildCall method url body) made)
      /\ (forall req, ~ In (SendRequestCall req) made)
      /\ (forall req,
             In (DoCall req) made ->
             newStreamRequest P c ctx "POST" urlSuffix forced model
             = inl req)
      /\ (checkModelSupportsPlugins P model = true ->
          checkEndpointSupportsModel P urlSuffix model = true ->
          exists rest,
            made = NewStreamRequestCall "POST" urlSuffix forced model
                   :: rest).
Proof.
  cbv zeta. split; [reflexivity|].
  rewrite CreateChatCompletionStream_paths. cbv zeta.
  destruct (checkModelSupportsPlugins P _); cbn [negb].
  2: { exists []. split; [cbn; rewrite app_nil_r; reflexivity|].
       split; [intros ? ? ? ? []|]. split; [intros ? ? ? []|].
       split; [intros ? []|]. split; [intros ? []|]. discriminate. }
  destruct (checkEndpointSupportsModel P _ _); cbn [negb].
  2: { exists []. split; [cbn; rewrite app_nil_r; reflexivity|].
       split; [intros ? ? ? ? []|]. split; [intros ? ? ? []|].
       split; [intros ? []|]. split; [intros ? []|]. discriminate. }
  destruct (newStreamRequest P c ctx _ _ _ _) as [req|err].
  - exists [NewStreamRequestCall "POST" urlSuffix
              (ChatCompletionRequest.set_Stream true request)
              (ChatCompletionRequest.Model request); DoCall req].
    split.
    { destruct (Do _ _); [destruct (isFailureStatusCode P _)|];
        reflexivity. }
    split.
    { intros method suffix body m [H|[H|[]]]; [|discriminate].
      injection H as <- <- <- <-. split; reflexivity. }
    split; [intros ? ? ? [H|[H|[]]]; discriminate|].
    split; [intros ? [H|[H|[]]]; discriminate|].
    split.
    { intros r [H|[H|[]]]; [discriminate|].
      injection H as <-. reflexivity. }
    intros _ _. eexists; reflexivity.
  - exists [NewStreamRequestCall "POST" urlSuffix
              (ChatCompletionRequest.set_Stream true request)
              (ChatCompletionRequest.Model request)].
    split; [reflexivity|].
    split.
    { intros method suffix body m [H|[]].
      injection H as <- <- <- <-. split; reflexivity. }
    split; [intros ? ? ? [H|[]]; discriminate|].
    split; [intros ? [H|[]]; discriminate|].
    split; [intros ? [H|[]]; discriminate|].
    intros _ _. eexists; reflexivity.
Qed.


(** The request variables after [CreateChatCompletionStream]: those of
    before, and the parameter of the call. *)
Lemma CreateChatCompletionStream_vars
      (c : Client Context Request) (ctx : Context)
      (arg : ChatCompletionRequest) (s : state Request) :
  vars (snd (CreateChatCompletionStream P c ctx arg s))
  = vars s
    ++ [if checkModelSupportsPlugins P (ChatCompletionRequest.Model arg)
           && checkEndpointSupportsModel P urlSuffix
                (ChatCompletionRequest.Model arg)
        then ChatCompletionRequest.set_Stream true arg
        else arg].
Proof.
  rewrite CreateChatCompletionStream_paths. cbv zeta.
  destruct (checkModelSupportsPlugins P _); [|reflexivity].
  destruct (checkEndpointSupportsModel P _ _); [|reflexivity].
  cbn [negb andb].
  destruct (newStreamRequest P c ctx _ _ _ _);
    [destruct (Do _ _); [destruct (isFailureStatusCode P _)|]|];
    reflexivity.
Qed.

(** C10. [CreateChatCompletionStream] works on its own copy of the
    request: every request variable that exists when the call is made,
    the caller's among them, holds the same value after the call, with the
    same [Stream] field, while the parameter of the call, a new variable,
    has [Stream] set once the model has passed both checks. *)
Theorem caller_request_unchanged
        (c : Client Context Request) (ctx : Context)
        (x : nat) (s : state Request) :
  (x < List.length (vars s))%nat ->
  let request := nth x (vars s) ChatCompletionRequest.zero in
  let s' := snd (CreateChatCompletionStream P c ctx request s) in
  let model := ChatCompletionRequest.Model request in
  nth_error (vars s') x = Some request
  /\ ChatCompletionRequest.Stream
       (nth x (vars s') ChatCompletionRequest.zero)
     = ChatCompletionRequest.Stream request
  /\ firstn (List.length (vars s)) (vars s') = vars s
  /\ (checkModelSupportsPlugins P model = true ->
      checkEndpointSupportsModel P urlSuffix model = true ->
      nth_error (vars s') (List.length (vars s))
      = Some (ChatCompletionRequest.set_Stream true request)).
Proof.
  intros Hx. cbv zeta. rewrite CreateChatCompletionStream_vars.
  set (request := nth x (vars s) ChatCompletionRequest.zero).
  match goal with |- context [vars s ++ [?q]] => set (p := q) end.
  assert (Hnth : nth_error (vars s ++ [p]) x = Some request).
  { rewrite nth_error_app1 by exact Hx.
    unfold request. apply nth_error_nth'. exact Hx. }
  split; [exact Hnth|].
  split; [rewrite (nth_error_nth _ _ _ Hnth); reflexivity|].
  split.
  - rewrite firstn_app, firstn_all, Nat.sub_diag. cbn.
    apply app_nil_r.
  - intros H1 H2. subst p. rewrite H1, H2. cbn [andb].
    rewrite nth_error_app2 by apply Nat.le_refl.
    rewrite Nat.sub_diag. reflexivity.
Qed.

End ClientTheorems.

(* ================================================================== *)
(** ** Theorems: the streaming reader *)
(* ================================================================== *)

Section RecvTheorems.

Context {T : Type}.

Lemma cutPrefix_app (p rest : string) :
  cutPrefix p (p ++ rest)%string = Some rest.
Proof.
  induction p as [|a p IH]; simpl; [reflexivity|].
  rewrite Ascii.eqb_refl. exact IH.
Qed.

(** [recvLines] on a line that was read. *)
Lemma recvLines_Line (limit : nat) (decode : string -> option T)
      (count : nat) (acc raw : string) (rest : Body) :
  recvLines limit decode count acc (Line raw :: rest)
  = if String.eqb (trimNewline raw) EmptyString then
      if (limit <? S count)%nat
      then (Ended (Failed EmptyStreamExceeded), (rest, S count, acc))
      else recvLines limit decode (S count) acc rest
    else
      match cutPrefix headerData (trimNewline raw) with
      | None => recvLines limit decode count acc rest
      | Some payload =>
          if String.eqb payload doneSentinel
          then (Ended Done, (rest, count, acc))
          else
            match decode payload with
            | None =>
                (Ended (Failed (DecodeError (acc ++ payload))),
                 (rest, count, (acc ++ payload)%string))
            | Some event => (Received event, (rest, O, acc))
            end
      end.
Proof. reflexivity. Qed.

(** A run of blank lines within the tolerance is read through; it only
    moves the counter. *)
Lemma recvLines_blanks (limit : nat) (decode : string -> option T)
      (acc : string) (rest : Body) (blanks : list string) :
  Forall blank blanks ->
  forall count : nat,
    (count + List.length blanks <= limit)%nat ->
    recvLines limit decode count acc (map Line blanks ++ rest)
    = recvLines limit decode (count + List.length blanks) acc rest.
Proof.
  induction 1 as [|raw blanks Hraw _ IH]; intros count Hle;
    cbn [map app List.length] in *.
  - rewrite Nat.add_0_r. reflexivity.
  - unfold blank in Hraw. rewrite recvLines_Line, Hraw. cbn [String.eqb].
    destruct (Nat.ltb_spec limit (S count)) as [Hlt|_]; [lia|].
    rewrite IH by lia. f_equal. lia.
Qed.

(** One blank line more than the tolerance leaves fails the stream. *)
Lemma recvLines_too_many_blanks (limit : nat) (decode : string -> option T)
      (acc : string) (rest : Body) (blanks : list string) :
  Forall blank blanks ->
  forall count : nat,
    (count <= limit)%nat ->
    (count + List.length blanks = S limit)%nat ->
    recvLines limit decode count acc (map Line blanks ++ rest)
    = (Ended (Failed EmptyStreamExceeded), (rest, S limit, acc)).
Proof.
  induction 1 as [|raw blanks Hraw _ IH]; intros count Hle Hlen;
    cbn [map app List.length] in *; [lia|].
  unfold blank in Hraw. rewrite recvLines_Line, Hraw. cbn [String.eqb].
  destruct (Nat.ltb_spec limit (S count)) as [Hlt|Hge].
  - assert (count = limit) by lia. subst count.
    destruct blanks; [reflexivity | simpl in Hlen; lia].
  - apply IH; lia.
Qed.

(** An event line: the payload after the prefix decodes. *)
Lemma recvLines_event (limit : nat) (decode : string -> option T)
      (count : nat) (acc : string) (rest : Body)
      (raw payload : string) (event : T) :
  trimNewline raw = (headerData ++ payload)%string ->
  payload <> doneSentinel ->
  decode payload = Some event ->
  recvLines limit decode count acc (Line raw :: rest)
  = (Received event, (rest, O, acc)).
Proof.
  intros Hraw Hsentinel Hdecode. rewrite recvLines_Line, Hraw.
  change (String.eqb (headerData ++ payload) EmptyString) with false.
  cbv iota. rewrite cutPrefix_app.
  destruct (String.eqb_spec payload doneSentinel) as [|_];
    [contradiction|].
  rewrite Hdecode. reflexivity.
Qed.

(** A noise line is skipped and leaves the counter as it is. *)
Lemma recvLines_noise (limit : nat) (decode : string -> option T)
      (count : nat) (acc : string) (rest : Body) (raw : string) :
  noise raw ->
  recvLines limit decode count acc (Line raw :: rest)
  = recvLines limit decode count acc rest.
Proof.
  intros [Hnonempty Hprefix]. rewrite recvLines_Line, Hprefix.
  destruct (String.eqb_spec (trimNewline raw) EmptyString) as [Hempty|_];
    [contradiction | reflexivity].
Qed.

(** The counter after the lines are read: it has not gone down, unless an
    event was decoded, and then it is zero. *)
Lemma recvLines_counter (limit : nat) (decode : string -> option T)
      (acc : string) (rd : Body) :
  forall count : nat,
    let '(result, (_, count', _)) := recvLines limit decode count acc rd in
    match result with
    | Received _ => count' = O
    | Ended _ => (count <= count')%nat
    end.
Proof.
  induction rd as [|[raw|cause] rest IH]; intros count;
    [cbn; lia| |cbn; lia].
  rewrite recvLines_Line.
  destruct (String.eqb (trimNewline raw) EmptyString).
  - destruct (limit <? S count)%nat; [lia|].
    specialize (IH (S count)).
    destruct (recvLines limit decode (S count) acc rest)
      as [[event|outcome] [[rest' count'] acc']]; [exact IH | lia].
  - destruct (cutPrefix headerData (trimNewline raw)) as [payload|];
      [|apply IH].
    destruct (String.eqb payload doneSentinel); [lia|].
    destruct (decode payload); [reflexivity | lia].
Qed.

(** A closed reader gives its outcome again, and no event. *)
Lemma RecvN_closed (outcome : StreamOutcome) (n : nat) :
  forall stream : streamReader T,
    closed stream = Some outcome ->
    RecvN n stream = repeat (Ended outcome) n.
Proof.
  induction n as [|n IH]; intros stream Hclosed; simpl; [reflexivity|].
  unfold Recv. rewrite Hclosed. f_equal. apply IH. exact Hclosed.
Qed.

(** A reader that [Recv] leaves open has its counter at zero: with the
    new reader, every open reader a consumer holds between two calls has. *)
Lemma Recv_open_counter (stream : streamReader T) :
  closed (snd (Recv stream)) = None ->
  emptyMessagesCount (snd (Recv stream)) = O.
Proof.
  unfold Recv. destruct (closed stream) as [outcome|] eqn:Hclosed.
  - cbn. rewrite Hclosed. discriminate.
  - pose proof (recvLines_counter (emptyMessagesLimit stream)
                  (unmarshaler stream) (errAccumulator stream)
                  (reader stream) (emptyMessagesCount stream)) as Hcounter.
    destruct (recvLines _ _ _ _ _) as [result [[rest count'] acc']].
    cbn. destruct result; [intros _; exact Hcounter | discriminate].
Qed.

(** C8. Take an open reader whose counter of empty messages is zero, as a
    new reader is and as [Recv] leaves it ([Recv_open_counter]), with
    tolerance [emptyMessagesLimit].

    - Fed blank lines, no more than the tolerance, and then an event line
      whose payload decodes, [Recv] gives [Received] with the event, the
      reader stays open with its counter at zero and has read exactly
      these lines; when nothing follows them, this is the one [Received]
      of the stream, every later [Recv] giving [Done].
    - Fed one blank line more than the tolerance, [Recv] gives
      [Failed EmptyStreamExceeded], the reader is closed, and every later
      [Recv] gives this outcome again and no event.
    - For any reader, the counter after a [Recv] is zero when an event was
      decoded, and is otherwise not below its value before: only a decoded
      event resets it.  A skipped noise line does not: blank lines before
      and after one count together, and one more of them than the tolerance
      fails the stream. *)
Theorem empty_message_tolerance (stream : streamReader T) :
  closed stream = None ->
  emptyMessagesCount stream = O ->
  (forall (blanks : list string) (raw payload : string) (event : T)
          (rest : Body),
      Forall blank blanks ->
      (List.length blanks <= emptyMessagesLimit stream)%nat ->
      trimNewline raw = (headerData ++ payload)%string ->
      payload <> doneSentinel ->
      unmarshaler stream payload = Some event ->
      reader stream = map Line blanks ++ Line raw :: rest ->
      fst (Recv stream) = Received event
      /\ closed (snd (Recv stream)) = None
      /\ emptyMessagesCount (snd (Recv stream)) = O
      /\ reader (snd (Recv stream)) = rest
      /\ (rest = [] ->
          forall n : nat,
            RecvN (S n) stream = Received event :: repeat (Ended Done) n))
  /\ (forall (blanks : list string) (rest : Body),
         Forall blank blanks ->
         List.length blanks = S (emptyMessagesLimit stream) ->
         reader stream = map Line blanks ++ rest ->
         fst (Recv stream) = Ended (Failed EmptyStreamExceeded)
         /\ closed (snd (Recv stream)) = Some (Failed EmptyStreamExceeded)
         /\ forall n : nat,
             RecvN n stream
             = repeat (Ended (Failed EmptyStreamExceeded)) n
             /\ existsb isReceived (RecvN n stream) = false)
  /\ (forall r : streamReader T,
         match fst (Recv r) with
         | Received _ => emptyMessagesCount (snd (Recv r)) = O
         | Ended _ =>
             (emptyMessagesCount r <= emptyMessagesCount (snd (Recv r)))%nat
         end)
  /\ (forall (before after : list string) (raw : string) (rest : Body),
         Forall blank before ->
         noise raw ->
         Forall blank after ->
         (List.length before + List.length after
          = S (emptyMessagesLimit stream))%nat ->
         reader stream
         = map Line before ++ Line raw :: map Line after ++ rest ->
         fst (Recv stream) = Ended (Failed EmptyStreamExceeded)).
Proof.
  intros Hopen Hcount. split; [|split; [|split]].
  - intros blanks raw payload event rest Hblanks Hlen Hraw Hsentinel
           Hdecode Hreader.
    assert (Hrecv : Recv stream
                    = (Received event,
                       mkStreamReader (emptyMessagesLimit stream) rest
                         (response stream) (errAccumulator stream)
                         (unmarshaler stream) O None)).
    { unfold Recv. rewrite Hopen, Hreader, Hcount.
      rewrite recvLines_blanks by (simpl; assumption).
      rewrite (recvLines_event _ _ _ _ _ _ _ _ Hraw Hsentinel Hdecode).
      reflexivity. }
    rewrite Hrecv. cbn.
    repeat (split; [reflexivity|]).
    intros -> n. rewrite Hrecv. f_equal.
    destruct n as [|n]; [reflexivity|]. cbn.
    f_equal. apply RecvN_closed. reflexivity.
  - intros blanks rest Hblanks Hlen Hreader.
    assert (Hrecv : Recv stream
                    = (Ended (Failed EmptyStreamExceeded),
                       mkStreamReader (emptyMessagesLimit stream) rest
                         (response stream) (errAccumulator stream)
                         (unmarshaler stream)
                         (S (emptyMessagesLimit stream))
                         (Some (Failed EmptyStreamExceeded)))).
    { unfold Recv. rewrite Hopen, Hreader, Hcount.
      rewrite (recvLines_too_many_blanks _ _ _ _ _ Hblanks) by lia.
      reflexivity. }
    rewrite Hrecv. cbn.
    repeat (split; [reflexivity|]).
    assert (Hall : forall n,
               RecvN n stream
               = repeat (Ended (Failed EmptyStreamExceeded)) n).
    { intros [|n]; [reflexivity|]. cbn [RecvN]. rewrite Hrecv.
      cbn. f_equal. apply RecvN_closed. reflexivity. }
    intros n. split; [apply Hall|].
    rewrite Hall. induction n; [reflexivity | exact IHn].
  - intros r. unfold Recv.
    destruct (closed r) as [outcome|]; [cbn; lia|].
    pose proof (recvLines_counter (emptyMessagesLimit r) (unmarshaler r)
                  (errAccumulator r) (reader r) (emptyMessagesCount r))
      as Hcounter.
    destruct (recvLines _ _ _ _ _) as [result [[rest count'] acc']].
    cbn. destruct result; exact Hcounter.
  - intros before after raw rest Hbefore Hnoise Hafter Hlen Hreader.
    unfold Recv. rewrite Hopen, Hreader, Hcount.
    destruct (Nat.eq_dec (List.length after) 0) as [Hnone|Hsome].
    + rewrite (recvLines_too_many_blanks _ _ _ _ _ Hbefore) by lia.
      reflexivity.
    + rewrite recvLines_blanks by (simpl; lia || assumption).
      rewrite (recvLines_noise _ _ _ _ _ _ Hnoise).
      rewrite (recvLines_too_many_blanks _ _ _ _ _ Hafter) by (simpl; lia).
      reflexivity.
Qed.

End RecvTheorems.

(* ================================================================== *)
(** ** The theorems at work on the scripted client *)
(* ================================================================== *)

Lemma stream_flag_rejected_without_io_witness :
  ChatCompletionRequest.Stream (Demo.request "gpt-4-0613" true) = true
  /\ fst (CreateChatCompletion Demo.package
            (Demo.client Demo.notFound 300) tt
            (Demo.request "gpt-4-0613" true) Demo.start)
     = (ChatCompletionResponse.zero tt,
        Some ErrChatCompletionStreamNotSupported)
  /\ calls (snd (CreateChatCompletion Demo.package
                   (Demo.client Demo.notFound 300) tt
                   (Demo.request "gpt-4-0613" true) Demo.start))
     = [].
Proof.
  split; [reflexivity|].
  apply (stream_flag_rejected_without_io
           Demo.package (Demo.client Demo.notFound 300) tt
           (Demo.request "gpt-4-0613" true) Demo.start).
  reflexivity.
Defined.

Lemma precondition_checks_in_order_witness :
  checkModelSupportsPlugins Demo.package "davinci" = false
  /\ snd (fst (CreateChatCompletion Demo.package
                 (Demo.client Demo.notFound 300) tt
                 (Demo.request "davinci" true) Demo.start))
     = Some ErrChatCompletionStreamNotSupported
  /\ snd (fst (CreateChatCompletion Demo.package
                 (Demo.client Demo.notFound 300) tt
                 (Demo.request "davinci" false) Demo.start))
     = Some ErrModelNotSupportedWithPlugins.
Proof.
  split; [reflexivity|]. split.
  - destruct (precondition_checks_in_order
                Demo.package (Demo.client Demo.notFound 300) tt
                (Demo.request "davinci" true) Demo.start)
      as (_ & H & _).
    apply H; [reflexivity | left; reflexivity].
  - destruct (precondition_checks_in_order
                Demo.package (Demo.client Demo.notFound 300) tt
                (Demo.request "davinci" false) Demo.start)
      as (_ & _ & H & _).
    apply H; reflexivity.
Defined.

Lemma unsupported_model_rejected_without_connection_witness :
  checkModelSupportsPlugins Demo.package "davinci" = false
  /\ fst (CreateChatCompletionStream Demo.package
            (Demo.client (Demo.ok []) 300) tt
            (Demo.request "davinci" false) Demo.start)
     = (None, Some ErrModelNotSupportedWithPlugins)
  /\ checkModelSupportsPlugins Demo.package "code-davinci-002" = true
  /\ checkEndpointSupportsModel Demo.package "/chat/completions"
                                "code-davinci-002" = false
  /\ fst (CreateChatCompletionStream Demo.package
            (Demo.client (Demo.ok []) 300) tt
            (Demo.request "code-davinci-002" false) Demo.start)
     = (None, Some ErrChatCompletionInvalidModel).
Proof.
  split; [reflexivity|]. split.
  - destruct (unsupported_model_rejected_without_connection
                Demo.package (Demo.client (Demo.ok []) 300) tt
                (Demo.request "davinci" false) Demo.start)
      as (H & _).
    apply H. reflexivity.
  - split; [reflexivity|]. split; [reflexivity|].
    destruct (unsupported_model_rejected_without_connection
                Demo.package (Demo.client (Demo.ok []) 300) tt
                (Demo.request "code-davinci-002" false) Demo.start)
      as (_ & H & _).
    apply H; reflexivity.
Defined.

Lemma stream_flag_forced_witness :
  exists rest,
    calls (snd (CreateChatCompletionStream Demo.package
                  (Demo.client (Demo.ok []) 300) tt
                  (Demo.request "gpt-4-0613" false) Demo.start))
    = NewStreamRequestCall "POST" "/chat/completions"
        (Demo.request "gpt-4-0613" true) "gpt-4-0613" :: rest.
Proof.
  destruct (stream_flag_forced
              Demo.package (Demo.client (Demo.ok []) 300) tt
              (Demo.request "gpt-4-0613" false) Demo.start)
    as (_ & made & Hcalls & _ & _ & _ & _ & Hfirst).
  destruct (Hfirst eq_refl eq_refl) as [rest Hmade].
  exists rest. rewrite Hcalls, Hmade. reflexivity.
Defined.


Lemma caller_request_unchanged_witness :
  (0 < List.length
         (vars (Demo.held (Demo.request "gpt-4-0613" false))))%nat
  /\ nth_error
       (vars (snd (CreateChatCompletionStream Demo.package
                     (Demo.client (Demo.ok []) 300) tt
                     (Demo.request "gpt-4-0613" false)
                     (Demo.held (Demo.request "gpt-4-0613" false)))))
       0
     = Some (Demo.request "gpt-4-0613" false).
Proof.
  split; [cbn; lia|].
  apply (caller_request_unchanged
           Demo.package (Demo.client (Demo.ok []) 300) tt
           0 (Demo.held (Demo.request "gpt-4-0613" false))).
  cbn; lia.
Defined.

Lemma empty_message_tolerance_witness :
  fst (Recv (Demo.rawReader 2
               (map Line Demo.keepAlive ++ [Line Demo.eventLine])))
  = Received "{}"
  /\ fst (Recv (Demo.rawReader 1
                  (map Line Demo.keepAlive ++ [Line Demo.eventLine])))
     = Ended (Failed EmptyStreamExceeded).
Proof.
  split.
  - destruct (empty_message_tolerance
                (Demo.rawReader 2
                   (map Line Demo.keepAlive ++ [Line Demo.eventLine]))
                eq_refl eq_refl)
      as (H & _).
    apply (H Demo.keepAlive Demo.eventLine "{}" "{}" []).
    + repeat constructor.
    + cbn; lia.
    + reflexivity.
    + discriminate.
    + reflexivity.
    + reflexivity.
  - destruct (empty_message_tolerance
                (Demo.rawReader 1
                   (map Line Demo.keepAlive ++ [Line Demo.eventLine]))
                eq_refl eq_refl)
      as (_ & H & _).
    apply (H Demo.keepAlive [Line Demo.eventLine]).
    + repeat constructor.
    + reflexivity.
    + reflexivity.
Defined.

(* ================================================================== *)
(** ** More on the conditional serializer *)
(* ================================================================== *)

(** [==] on function calls decides equality. *)
Lemma FunctionCall_eqb_spec (a b : FunctionCall) :
  FunctionCall.eqb a b = true <-> a = b.
Proof.
  destruct a as [n a], b as [n' a']. unfold FunctionCall.eqb. cbn.
  rewrite andb_true_iff, !String.eqb_eq. split.
  - intros [-> ->]. reflexivity.
  - intros [= -> ->]. split; reflexivity.
Qed.

(** The encoding of a message, in one equation. *)
Lemma ChatCompletionMessage_MarshalJSON_members (c : ChatCompletionMessage) :
  ChatCompletionMessage_MarshalJSON c
  = Some (JObject
            ([("role", JString (ChatCompletionMessage.Role c));
              ("content", JString (ChatCompletionMessage.Content c))]
             ++ omitempty "name" (ChatCompletionMessage.Name c)
             ++ functionCallMember (ChatCompletionMessage.FunctionCall c))).
Proof.
  destruct c as [role content f name]. cbn [ChatCompletionMessage.Role
    ChatCompletionMessage.Content ChatCompletionMessage.Name
    ChatCompletionMessage.FunctionCall].
  unfold functionCallMember.
  destruct (FunctionCall.eqb f zeroFunctionCall) eqn:Hf.
  - apply FunctionCall_eqb_spec in Hf. subst f.
    rewrite ChatCompletionMessage_MarshalJSON_zero, app_nil_r. reflexivity.
  - apply ChatCompletionMessage_MarshalJSON_set.
    intros ->. discriminate Hf.
Qed.

(** The encoding of a delta, in one equation. *)
Lemma ChatCompletionStreamChoiceDelta_MarshalJSON_members
      (d : ChatCompletionStreamChoiceDelta) :
  ChatCompletionStreamChoiceDelta_MarshalJSON d
  = Some (JObject
            (omitempty "content" (ChatCompletionStreamChoiceDelta.Content d)
             ++ omitempty "role" (ChatCompletionStreamChoiceDelta.Role d)
             ++ functionCallMember
                  (ChatCompletionStreamChoiceDelta.FunctionCall d))).
Proof.
  destruct d as [content role f]. cbn [ChatCompletionStreamChoiceDelta.Role
    ChatCompletionStreamChoiceDelta.Content
    ChatCompletionStreamChoiceDelta.FunctionCall].
  unfold functionCallMember.
  destruct (FunctionCall.eqb f zeroFunctionCall) eqn:Hf.
  - apply FunctionCall_eqb_spec in Hf. subst f.
    rewrite ChatCompletionStreamChoiceDelta_MarshalJSON_zero, app_nil_r.
    reflexivity.
  - apply ChatCompletionStreamChoiceDelta_MarshalJSON_set.
    intros ->. discriminate Hf.
Qed.

Lemma keys_omitempty (key value : string) :
  map fst (omitempty key value)
  = if String.eqb value EmptyString then [] else [key].
Proof. unfold omitempty. destruct (String.eqb value EmptyString); reflexivity. Qed.

Lemma keys_functionCallMember (f : FunctionCall) :
  map fst (functionCallMember f)
  = if FunctionCall.eqb f zeroFunctionCall then [] else ["function_call"].
Proof.
  unfold functionCallMember.
  destruct (FunctionCall.eqb f zeroFunctionCall); reflexivity.
Qed.






(** X3. Although two fields of the structs that [MarshalJSON] encodes have
    the JSON name [function_call], no key occurs twice in the encoding of a
    message or of a delta, nor in the ["function_call"] object inside it.
*)
Theorem encodings_have_distinct_keys
        (c : ChatCompletionMessage) (d : ChatCompletionStreamChoiceDelta) :
  exists jc jd,
    ChatCompletionMessage_MarshalJSON c = Some jc
    /\ ChatCompletionStreamChoiceDelta_MarshalJSON d = Some jd
    /\ NoDup (keys jc)
    /\ NoDup (keys jd)
    /\ match member "function_call" jc with
       | Some fc => NoDup (keys fc)
       | None => True
       end
    /\ match member "function_call" jd with
       | Some fc => NoDup (keys fc)
       | None => True
       end.
Proof.
  do 2 eexists.
  split; [apply ChatCompletionMessage_MarshalJSON_members|].
  split; [apply ChatCompletionStreamChoiceDelta_MarshalJSON_members|].
  destruct c as [role content [n a] name], d as [dcontent drole [dn da]].
  cbn [ChatCompletionMessage.Role ChatCompletionMessage.Content
       ChatCompletionMessage.Name ChatCompletionMessage.FunctionCall
       ChatCompletionStreamChoiceDelta.Role
       ChatCompletionStreamChoiceDelta.Content
       ChatCompletionStreamChoiceDelta.FunctionCall].
  repeat split.
  - destruct name, n, a; cbn;
      repeat (constructor; [cbn; intuition discriminate|]); constructor.
  - destruct dcontent, drole, dn, da; cbn;
      repeat (constructor; [cbn; intuition discriminate|]); constructor.
  - destruct name, n, a; cbn; try exact I;
      repeat (constructor; [cbn; intuition discriminate|]); constructor.
  - destruct dcontent, drole, dn, da; cbn; try exact I;
      repeat (constructor; [cbn; intuition discriminate|]); constructor.
Qed.






(* ================================================================== *)
(** ** More on the two entry points *)
(* ================================================================== *)

Section MoreClientTheorems.

Context {Context Request Usage : Type}.
Variable P : Package Context Request Usage.

Lemma app_not_self {A : Type} (l : list A) (x : A) (rest : list A) :
  l ++ x :: rest <> l.
Proof.
  intros H. apply (f_equal (@List.length A)) in H.
  rewrite length_app in H. cbn in H. lia.
Qed.

(** X7. [CreateChatCompletion] reaches its collaborators exactly when the
    request passes the three checks: the log of calls is unchanged if and
    only if [Stream] is set or one of the two model checks fails, and
    otherwise its first new entry is the building of a POST request to
    [fullURL("/chat/completions", model)] with the caller's request,
    unmodified, as body. *)
Theorem buffered_call_reaches_builder_iff_valid
        (c : Client Context Request) (ctx : Context)
        (request : ChatCompletionRequest) (s : state Request) :
  let s' := snd (CreateChatCompletion P c ctx request s) in
  let model := ChatCompletionRequest.Model request in
  (calls s' = calls s
   <-> ChatCompletionRequest.Stream request = true
       \/ checkModelSupportsPlugins P model = false
       \/ checkEndpointSupportsModel P urlSuffix model = false)
  /\ ((exists rest,
         calls s'
         = calls s
           ++ BuildCall "POST" (fullURL P c urlSuffix model) request :: rest)
      <-> ChatCompletionRequest.Stream request = false
          /\ checkModelSupportsPlugins P model = true
          /\ checkEndpointSupportsModel P urlSuffix model = true).
Proof.
  cbv zeta. rewrite CreateChatCompletion_paths. cbv zeta.
  destruct (ChatCompletionRequest.Stream request);
    [cbn; split; split; try tauto;
     [intros [rest H]; symmetry in H; apply app_not_self in H; tauto
     |intros (H & _); discriminate]|].
  destruct (checkModelSupportsPlugins P _);
    [|cbn; split; split; try tauto;
      [intros [rest H]; symmetry in H; apply app_not_self in H; tauto
      |intros (_ & H & _); discriminate]].
  destruct (checkEndpointSupportsModel P _ _);
    [|cbn; split; split; try tauto;
      [intros [rest H]; symmetry in H; apply app_not_self in H; tauto
      |intros (_ & _ & H); discriminate]].
  cbn [negb].
  destruct (Build _ _ _ _ _); cbn; split; split;
    try (intros H; apply app_not_self in H; tauto);
    try (intros [H|[H|H]]; discriminate);
    try (intros _; eexists; reflexivity);
    try (intros _; repeat split).
Qed.


(** X9. When the request passes the checks and the request builder fails,
    [CreateChatCompletion] returns the zero response and the error of the
    builder, and nothing is sent: the one call logged is the failed
    building. *)
Theorem buffered_call_returns_builder_error
        (c : Client Context Request) (ctx : Context)
        (request : ChatCompletionRequest) (s : state Request)
        (err : error) :
  let url := fullURL P c urlSuffix (ChatCompletionRequest.Model request) in
  ChatCompletionRequest.Stream request = false ->
  checkModelSupportsPlugins P (ChatCompletionRequest.Model request) = true ->
  checkEndpointSupportsModel P urlSuffix
    (ChatCompletionRequest.Model request) = true ->
  Build (requestBuilder c) ctx "POST" url request = inr err ->
  fst (CreateChatCompletion P c ctx request s)
  = (ChatCompletionResponse.zero (zeroUsage P), Some err)
  /\ calls (snd (CreateChatCompletion P c ctx request s))
     = calls s ++ [BuildCall "POST" url request].
Proof.
  cbv zeta. intros Hstream Hplugins Hendpoint Hbuilt.
  rewrite CreateChatCompletion_paths. cbv zeta.
  rewrite Hstream, Hplugins, Hendpoint. cbn [negb].
  change http.MethodPost with "POST". rewrite Hbuilt.
  split; reflexivity.
Qed.

(** X10. [CreateChatCompletion] never assigns to its request: after the
    call the request variables are those of before, unchanged, followed by
    the parameter of the call, which still holds the value passed. *)
Theorem buffered_call_leaves_requests_alone
        (c : Client Context Request) (ctx : Context)
        (request : ChatCompletionRequest) (s : state Request) :
  vars (snd (CreateChatCompletion P c ctx request s))
  = vars s ++ [request].
Proof.
  rewrite CreateChatCompletion_paths. cbv zeta.
  destruct (ChatCompletionRequest.Stream request); [reflexivity|].
  destruct (checkModelSupportsPlugins P _); [|reflexivity].
  destruct (checkEndpointSupportsModel P _ _); [|reflexivity].
  cbn [negb]. destruct (Build _ _ _ _ _); reflexivity.
Qed.

(** X11. When [CreateChatCompletion] reports no error, the request passed
    the three checks, the request builder returned a request, and
    [sendRequest] on it reported no error; the response is the one
    [sendRequest] filled in, starting from the zero response. *)
Theorem buffered_call_success
        (c : Client Context Request) (ctx : Context)
        (request : ChatCompletionRequest) (s : state Request) :
  let result := fst (CreateChatCompletion P c ctx request s) in
  let model := ChatCompletionRequest.Model request in
  snd result = None ->
  ChatCompletionRequest.Stream request = false
  /\ checkModelSupportsPlugins P model = true
  /\ checkEndpointSupportsModel P urlSuffix model = true
  /\ exists req,
      Build (requestBuilder c) ctx "POST" (fullURL P c urlSuffix model)
            request = inl req
      /\ sendRequest P c req (ChatCompletionResponse.zero (zeroUsage P))
         = (fst result, None).
Proof.
  cbv zeta. rewrite CreateChatCompletion_paths. cbv zeta.
  destruct (ChatCompletionRequest.Stream request); [discriminate|].
  destruct (checkModelSupportsPlugins P _); [|discriminate].
  destruct (checkEndpointSupportsModel P _ _); [|discriminate].
  cbn [negb].
  destruct (Build _ _ _ _ _) as [req|err] eqn:Hbuilt; [|discriminate].
  cbn [fst snd]. intros Hnone.
  repeat split. exists req. split; [reflexivity|].
  destruct (sendRequest P c req _) as [response e]. cbn in *.
  subst e. reflexivity.
Qed.

Lemma Model_set_Stream (b : bool) (r : ChatCompletionRequest) :
  ChatCompletionRequest.Model (ChatCompletionRequest.set_Stream b r)
  = ChatCompletionRequest.Model r.
Proof. reflexivity. Qed.

Lemma set_Stream_set_Stream (b b' : bool) (r : ChatCompletionRequest) :
  ChatCompletionRequest.set_Stream b (ChatCompletionRequest.set_Stream b' r)
  = ChatCompletionRequest.set_Stream b r.
Proof. reflexivity. Qed.

(** X12. [CreateChatCompletionStream] returns a stream or an error, never
    both and never neither. *)
Theorem stream_call_returns_stream_or_error
        (c : Client Context Request) (ctx : Context)
        (request : ChatCompletionRequest) (s : state Request) :
  let result := fst (CreateChatCompletionStream P c ctx request s) in
  (fst result = None <-> snd result <> None)
  /\ (fst result <> None <-> snd result = None).
Proof.
  cbv zeta. rewrite CreateChatCompletionStream_paths. cbv zeta.
  destruct (checkModelSupportsPlugins P _); cbn [negb];
    [|cbn; split; split; intros; congruence].
  destruct (checkEndpointSupportsModel P _ _); cbn [negb];
    [|cbn; split; split; intros; congruence].
  destruct (newStreamRequest P c ctx _ _ _ _);
    [destruct (Do _ _); [destruct (isFailureStatusCode P _)|]|];
    cbn; split; split; intros; congruence.
Qed.

(** X13. The [Stream] flag the caller sets has no effect on
    [CreateChatCompletionStream]: for either value of the flag the results
    are those for the request as it is, and so are the calls made. *)
Theorem stream_flag_of_caller_is_irrelevant
        (c : Client Context Request) (ctx : Context)
        (request : ChatCompletionRequest) (s : state Request) (b : bool) :
  fst (CreateChatCompletionStream P c ctx
         (ChatCompletionRequest.set_Stream b request) s)
  = fst (CreateChatCompletionStream P c ctx request s)
  /\ calls (snd (CreateChatCompletionStream P c ctx
                  (ChatCompletionRequest.set_Stream b request) s))
     = calls (snd (CreateChatCompletionStream P c ctx request s)).
Proof.
  rewrite !CreateChatCompletionStream_paths. cbv zeta.
  rewrite !Model_set_Stream, !set_Stream_set_Stream.
  destruct (checkModelSupportsPlugins P _); cbn [negb];
    [|split; reflexivity].
  destruct (checkEndpointSupportsModel P _ _); cbn [negb];
    [|split; reflexivity].
  destruct (newStreamRequest P c ctx _ _ _ _);
    [destruct (Do _ _); [destruct (isFailureStatusCode P _)|]|];
    split; reflexivity.
Qed.

(** X14. The two entry points reject a model alike: when the model fails
    the capability check or the endpoint check, [CreateChatCompletionStream]
    on a request and [CreateChatCompletion] on the same request without
    [Stream] return the same error, and neither calls a collaborator. *)
Theorem entry_points_reject_alike
        (c : Client Context Request) (ctx : Context)
        (request : ChatCompletionRequest) (s : state Request) :
  let model := ChatCompletionRequest.Model request in
  let buffered :=
    CreateChatCompletion P c ctx
      (ChatCompletionRequest.set_Stream false request) s in
  let streamed := CreateChatCompletionStream P c ctx request s in
  checkModelSupportsPlugins P model = false
  \/ checkEndpointSupportsModel P urlSuffix model = false ->
  snd (fst buffered) = snd (fst streamed)
  /\ snd (fst streamed) <> None
  /\ calls (snd buffered) = calls s
  /\ calls (snd streamed) = calls s.
Proof.
  cbv zeta. intros Hrejected.
  rewrite CreateChatCompletion_paths, CreateChatCompletionStream_paths.
  cbv zeta. rewrite !Model_set_Stream.
  change (ChatCompletionRequest.Stream
            (ChatCompletionRequest.set_Stream false request)) with false.
  cbv iota.
  destruct (checkModelSupportsPlugins P _); cbn [negb];
    [|repeat split; discriminate].
  destruct (checkEndpointSupportsModel P _ _); cbn [negb];
    [|repeat split; discriminate].
  destruct Hrejected; discriminate.
Qed.

(** X15. Every error [CreateChatCompletionStream] returns has one of five
    origins, tried in this order: the capability check, the endpoint check,
    the building of the request, the transport, and a failure status of the
    response; the errors of the collaborators are returned as they are. *)
Theorem stream_call_error_origin
        (c : Client Context Request) (ctx : Context)
        (request : ChatCompletionRequest) (s : state Request)
        (err : error) :
  let model := ChatCompletionRequest.Model request in
  let forced := ChatCompletionRequest.set_Stream true request in
  let built := newStreamRequest P c ctx "POST" urlSuffix forced model in
  snd (fst (CreateChatCompletionStream P c ctx request s)) = Some err ->
  (checkModelSupportsPlugins P model = false
   /\ err = ErrModelNotSupportedWithPlugins)
  \/ (checkModelSupportsPlugins P model = true
      /\ checkEndpointSupportsModel P urlSuffix model = false
      /\ err = ErrChatCompletionInvalidModel)
  \/ (checkModelSupportsPlugins P model = true
      /\ checkEndpointSupportsModel P urlSuffix model = true
      /\ (built = inr err
          \/ exists req,
              built = inl req
              /\ (Do (HTTPClient_ (config c)) req = inr err
                  \/ exists resp,
                      Do (HTTPClient_ (config c)) req = inl resp
                      /\ isFailureStatusCode P resp = true
                      /\ err = handleErrorResp P c resp))).
Proof.
  cbv zeta. rewrite CreateChatCompletionStream_paths. cbv zeta.
  destruct (checkModelSupportsPlugins P _); cbn [negb];
    [|cbn; intros [= <-]; left; split; reflexivity].
  destruct (checkEndpointSupportsModel P _ _); cbn [negb];
    [|cbn; intros [= <-]; right; left; repeat split].
  intros Herr. right. right. split; [reflexivity|]. split; [reflexivity|].
  destruct (newStreamRequest P c ctx _ _ _ _) as [req|e];
    [|cbn in Herr; injection Herr as ->; left; reflexivity].
  right. exists req. split; [reflexivity|].
  destruct (Do _ _) as [resp|e];
    [|cbn in Herr; injection Herr as ->; left; reflexivity].
  right. exists resp. split; [reflexivity|].
  destruct (isFailureStatusCode P resp); [|discriminate].
  cbn in Herr. injection Herr as <-. split; reflexivity.
Qed.

(** X16. [CreateChatCompletionStream] builds at most one request and
    dispatches at most one: it makes no call when the model fails a check,
    one call, the building, when the building fails, and otherwise the
    building followed by one dispatch of the request built, whatever the
    transport answers. *)
Theorem stream_call_sequence
        (c : Client Context Request) (ctx : Context)
        (request : ChatCompletionRequest) (s : state Request) :
  let model := ChatCompletionRequest.Model request in
  let forced := ChatCompletionRequest.set_Stream true request in
  let built := newStreamRequest P c ctx "POST" urlSuffix forced model in
  let building := NewStreamRequestCall "POST" urlSuffix forced model in
  let valid := checkModelSupportsPlugins P model
               && checkEndpointSupportsModel P urlSuffix model in
  exists made,
    calls (snd (CreateChatCompletionStream P c ctx request s))
    = calls s ++ made
    /\ ((valid = false /\ made = [])
        \/ (valid = true /\ (exists err, built = inr err)
            /\ made = [building])
        \/ (valid = true
            /\ exists req, built = inl req
                           /\ made = [building; DoCall req])).
Proof.
  cbv zeta. rewrite CreateChatCompletionStream_paths. cbv zeta.
  destruct (checkModelSupportsPlugins P _); cbn [negb andb];
    [|exists []; cbn; rewrite app_nil_r; split; [reflexivity | tauto]].
  destruct (checkEndpointSupportsModel P _ _); cbn [negb andb];
    [|exists []; cbn; rewrite app_nil_r; split; [reflexivity | tauto]].
  destruct (newStreamRequest P c ctx _ _ _ _) as [req|e].
  - eexists. split.
    + destruct (Do _ _); [destruct (isFailureStatusCode P _)|];
        reflexivity.
    + right. right. split; [reflexivity|]. exists req.
      split; reflexivity.
  - eexists. split; [reflexivity|].
    right. left. split; [reflexivity|].
    split; [exists e; reflexivity | reflexivity].
Qed.

End MoreClientTheorems.

(* ================================================================== *)
(** ** The further theorems at work on the scripted clients *)
(* ================================================================== *)

Lemma buffered_call_returns_builder_error_witness :
  ChatCompletionRequest.Stream (Demo.request "gpt-4-0613" false) = false
  /\ checkModelSupportsPlugins Demo.package "gpt-4-0613" = true
  /\ checkEndpointSupportsModel Demo.package urlSuffix "gpt-4-0613" = true
  /\ fst (CreateChatCompletion Demo.package Faulty.cannotBuild tt
            (Demo.request "gpt-4-0613" false) Demo.start)
     = (ChatCompletionResponse.zero tt, Some Faulty.buildError)
  /\ calls (snd (CreateChatCompletion Demo.package Faulty.cannotBuild tt
                   (Demo.request "gpt-4-0613" false) Demo.start))
     = [BuildCall "POST" "https://api.openai.com/v1/chat/completions"
                  (Demo.request "gpt-4-0613" false)].
Proof.
  split; [reflexivity|]. split; [reflexivity|]. split; [reflexivity|].
  apply (buffered_call_returns_builder_error
           Demo.package Faulty.cannotBuild tt
           (Demo.request "gpt-4-0613" false) Demo.start Faulty.buildError);
    reflexivity.
Defined.

Lemma buffered_call_success_witness :
  snd (fst (CreateChatCompletion Demo.package
              (Demo.client (Demo.ok []) 300) tt
              (Demo.request "gpt-4-0613" false) Demo.start)) = None
  /\ ChatCompletionRequest.Stream (Demo.request "gpt-4-0613" false) = false
  /\ checkModelSupportsPlugins Demo.package "gpt-4-0613" = true.
Proof.
  split; [reflexivity|].
  destruct (buffered_call_success
              Demo.package (Demo.client (Demo.ok []) 300) tt
              (Demo.request "gpt-4-0613" false) Demo.start)
    as (Hstream & Hplugins & _); [reflexivity|].
  split; [exact Hstream | exact Hplugins].
Defined.

Lemma entry_points_reject_alike_witness :
  checkModelSupportsPlugins Demo.package "davinci" = false
  /\ snd (fst (CreateChatCompletion Demo.package
                 (Demo.client (Demo.ok []) 300) tt
                 (Demo.request "davinci" false) Demo.start))
     = snd (fst (CreateChatCompletionStream Demo.package
                   (Demo.client (Demo.ok []) 300) tt
                   (Demo.request "davinci" true) Demo.start)).
Proof.
  split; [reflexivity|].
  destruct (entry_points_reject_alike
              Demo.package (Demo.client (Demo.ok []) 300) tt
              (Demo.request "davinci" true) Demo.start)
    as (H & _); [left; reflexivity|].
  exact H.
Defined.

Lemma stream_call_error_origin_witness :
  snd (fst (CreateChatCompletionStream Demo.package Faulty.offline tt
              (Demo.request "gpt-4-0613" false) Demo.start))
  = Some Faulty.dialError
  /\ exists req,
      newStreamRequest Demo.package Faulty.offline tt "POST" urlSuffix
        (Demo.request "gpt-4-0613" true) "gpt-4-0613" = inl req
      /\ Do Faulty.transport req = inr Faulty.dialError.
Proof.
  split; [reflexivity|].
  destruct (stream_call_error_origin
              Demo.package Faulty.offline tt
              (Demo.request "gpt-4-0613" false) Demo.start
              Faulty.dialError eq_refl)
    as [(H & _)|[(_ & H & _)|(_ & _ & [H|(req & Hbuilt & [H|H])])]].
  - discriminate H.
  - discriminate H.
  - discriminate H.
  - exists req. split; [exact Hbuilt | exact H].
  - destruct H as (resp & H & _). discriminate H.
Defined.

(** X17. The encoding of a message or of a delta is an object built from
    objects and strings only: an unset function call is left out, never
    written as [null]. *)
Theorem encodings_hold_no_null
        (c : ChatCompletionMessage) (d : ChatCompletionStreamChoiceDelta) :
  exists mc md,
    ChatCompletionMessage_MarshalJSON c = Some (JObject mc)
    /\ ChatCompletionStreamChoiceDelta_MarshalJSON d = Some (JObject md)
    /\ stringsOnly (JObject mc) = true
    /\ stringsOnly (JObject md) = true
    /\ ~ In JNull (map snd mc)
    /\ ~ In JNull (map snd md).
Proof.
  do 2 eexists.
  split; [apply ChatCompletionMessage_MarshalJSON_members|].
  split; [apply ChatCompletionStreamChoiceDelta_MarshalJSON_members|].
  destruct c as [role content [n a] name], d as [dcontent drole [dn da]].
  cbn [ChatCompletionMessage.Role ChatCompletionMessage.Content
       ChatCompletionMessage.Name ChatCompletionMessage.FunctionCall
       ChatCompletionStreamChoiceDelta.Role
       ChatCompletionStreamChoiceDelta.Content
       ChatCompletionStreamChoiceDelta.FunctionCall].
  repeat split.
  - destruct name, n, a; reflexivity.
  - destruct dcontent, drole, dn, da; reflexivity.
  - destruct name, n, a; cbn; intuition discriminate.
  - destruct dcontent, drole, dn, da; cbn; intuition discriminate.
Qed.
